(** * Booking lifecycle and occupancy sessions of the admin dashboard

    A shallow embedding of the business logic found in the two versions of
    the [AdminDashboard] component:

    - [src/unnamed/part_000]  (module [Part000] below), and
    - [src/src/pages/AdminDashboard.tsx]  (module [Pages] below).

    The component talks to a Supabase (PostgREST) store, to a webhook through
    [fetch], and to the operator through toasts.  The store is modelled as a
    pair of tables (lists of rows, in table order); every call to the store,
    to the clock and to [fetch] takes its reply from an explicit environment
    record, so that each handler is a total function from the store before
    the call to the store after it plus what the operator observes.

    Timestamps ([new Date()], ISO strings in the source) are integers:
    milliseconds since the epoch.  Prices (JS numbers) are integers: the
    model speaks of integral prices, and a statement about a sum of prices
    carries the condition under which JavaScript adds them exactly
    ([exact_sums]). *)

From Stdlib Require Import ZArith List Ascii String Bool Lia.
From Stdlib Require Import DecimalString.
Import ListNotations.

Local Open Scope string_scope.
Local Open Scope Z_scope.

(* ------------------------------------------------------------------------- *)
(** ** Data model *)

(** [status: 'pending' | 'code_sent' | 'confirmed' | 'rejected' | 'cancelled'] *)
Inductive BookingStatus : Set :=
  | pending | code_sent | confirmed | rejected | cancelled.

Definition BookingStatus_eqb (a b : BookingStatus) : bool :=
  match a, b with
  | pending, pending | code_sent, code_sent | confirmed, confirmed
  | rejected, rejected | cancelled, cancelled => true
  | _, _ => false
  end.

(** The string a status is in the source (used in toasts and webhook actions). *)
Definition status_text (s : BookingStatus) : string :=
  match s with
  | pending => "pending"
  | code_sent => "code_sent"
  | confirmed => "confirmed"
  | rejected => "rejected"
  | cancelled => "cancelled"
  end.

(** [interface Booking] *)
Module Booking.
Record t : Set := mk {
  id : string;
  workspace_type : string;
  date : string;
  time_slot : string;
  duration : string;
  customer_name : string;
  customer_email : string;
  customer_phone : string;
  customer_whatsapp : string;
  total_price : Z;
  status : BookingStatus;
  confirmation_code : option string;
  created_at : Z;
  updated_at : Z;
  user_id : option string;
  desk_number : option Z
}.
End Booking.

(** The session status column holds ['active'] or ['completed']. *)
Inductive SessionStatus : Set := active | completed.

Definition SessionStatus_eqb (a b : SessionStatus) : bool :=
  match a, b with
  | active, active | completed, completed => true
  | _, _ => false
  end.

(** A row of the [user_sessions] table: the columns the component reads
    ([id], [user_id], [booking_id], [session_type], [start_time], [status])
    and writes ([started_by], [end_time], [duration_minutes], [ended_by],
    [confirmation_required]). *)
Module Session.
Record t : Set := mk {
  id : string;
  user_id : string;
  booking_id : option string;
  session_type : string;
  start_time : Z;
  end_time : option Z;
  duration_minutes : option Z;
  status : SessionStatus;
  started_by : string;
  ended_by : option string;
  confirmation_required : bool
}.
End Session.

(** [interface User] of [AuthContext.tsx]. *)
Inductive Role : Set := admin | staff | customer.

Module User.
Record t : Set := mk {
  id : string;
  email : string;
  name : string;
  whatsapp : option string;
  role : Role
}.
End User.

(* ------------------------------------------------------------------------- *)
(** ** The store (Supabase client) *)

(** The error object of a PostgREST reply. *)
Record PostgrestError : Set := mkError {
  code : string;
  message : string
}.

(** The two tables the component uses. *)
Module Db.
Record t : Set := mk {
  bookings : list Booking.t;
  user_sessions : list Session.t
}.
End Db.

(** JS truthiness of an optional string: [undefined], [null] and [''] are
    falsy. *)
Definition truthy (s : option string) : bool :=
  match s with
  | Some s => negb (s =? "")%string
  | None => false
  end.

(** [a || b] on an optional string and a string. *)
Definition or_else (a : option string) (b : string) : string :=
  match a with
  | Some s => if (s =? "")%string then b else s
  | None => b
  end.

(** [x || 0] on a number. *)
Definition or_zero (x : Z) : Z := if x =? 0 then 0 else x.

(** [.single()]: exactly one row, otherwise error PGRST116. *)
Definition PGRST116 : PostgrestError :=
  mkError "PGRST116" "JSON object requested, multiple (or no) rows returned".

Definition single {A : Type} (rows : list A) : A + PostgrestError :=
  match rows with
  | [x] => inl x
  | _ => inr PGRST116
  end.

(** [.maybeSingle()]: [data] is the row when there is exactly one, [null]
    when there is none; more than one row gives [data = null] and error
    PGRST116. *)
Definition maybeSingle {A : Type} (rows : list A)
  : option A * option PostgrestError :=
  match rows with
  | [] => (None, None)
  | [x] => (Some x, None)
  | _ => (None, Some PGRST116)
  end.

(** [.update(patch).eq('id', key)]: every row whose id is [key] is patched,
    the others are kept; no matching row is not an error. *)
Definition update_eq_id {A : Type} (row_id : A -> string) (patch : A -> A)
  (key : string) (rows : list A) : list A :=
  map (fun r => if (row_id r =? key)%string then patch r else r) rows.

(** [.insert(row)]: the row is appended to the table. *)
Definition insert {A : Type} (row : A) (rows : list A) : list A :=
  rows ++ [row].

(* ------------------------------------------------------------------------- *)
(** ** What the operator and the outside world observe *)

Inductive Toast : Set :=
  | toast_success (msg : string)
  | toast_error (msg : string).

(** The outcome of [await fetch(...)]: the promise resolves with a response
    (whatever its HTTP status) or rejects (network failure, aborted or timed
    out request).  The handlers set no timeout of their own; a request that
    never settles is outside this model. *)
Inductive FetchResult : Set :=
  | Response (http_status : Z)
  | Rejected (reason : string).

(** The JSON body posted to the webhook.  [customerData] and
    [bookingDetails] are projections of one booking, kept here as that
    booking; [sessionId], [userId] and [sessionDetails] (start time, end
    time, duration in minutes) are present for session events only;
    [adminUser] is the operator's name ([endedBy] for session events). *)
Record WebhookBody : Set := mkBody {
  action : string;
  bookingId : option string;
  sessionId : option string;
  userId : option string;
  confirmationCode : option string;
  adminUser : string;
  customerData : Booking.t;
  sessionDetails : option (Z * Z * Z);
  timestamp : Z
}.

(** The result of running a handler: the store afterwards, the toast shown
    (if any), what went to [console.error], the webhook request sent (if
    any), and whether the dashboard data is fetched again. *)
Module Result.
Record t : Set := mk {
  db : Db.t;
  toast : option Toast;
  console : list string;
  posted : option WebhookBody;
  refetch : bool
}.
End Result.

Definition succeeded (r : Result.t) : bool :=
  match Result.toast r with
  | Some (toast_success _) => true
  | _ => false
  end.

Definition failed (r : Result.t) : bool :=
  match Result.toast r with
  | Some (toast_error _) => true
  | _ => false
  end.

(** The try/catch around the webhook call: a resolved promise logs nothing,
    a rejected one is logged by [console.error('Webhook failed:', ...)]. *)
Definition webhook_console (f : FetchResult) : list string :=
  match f with
  | Response _ => []
  | Rejected _ => ["Webhook failed:"]
  end.

(** [bookings.find(b => b.id === bookingId)] *)
Definition find_booking (bookingId : string) (l : list Booking.t)
  : option Booking.t :=
  find (fun b => (Booking.id b =? bookingId)%string) l.

(** The status stored for a booking, and the status the caller believes is
    current: the one in the component's own [bookings] state, from which its
    buttons are rendered. *)
Definition storedStatus (d : Db.t) (bookingId : string) : option BookingStatus :=
  option_map Booking.status (find_booking bookingId (Db.bookings d)).

Definition expectedCurrentStatus (bookings : list Booking.t)
  (bookingId : string) : option BookingStatus :=
  option_map Booking.status (find_booking bookingId bookings).

Definition storedCode (d : Db.t) (bookingId : string) : option string :=
  match find_booking bookingId (Db.bookings d) with
  | Some b => Booking.confirmation_code b
  | None => None
  end.

(* ------------------------------------------------------------------------- *)
(** ** updateBookingStatus (the same in both versions up to message texts) *)

(** [updateData]: [confirmation_code] is a key of the object only when a
    truthy code was passed. *)
Record UpdateData : Set := mkUpdateData {
  ud_status : BookingStatus;
  ud_updated_at : Z;
  ud_confirmation_code : option string
}.

Definition apply_updateData (u : UpdateData) (b : Booking.t) : Booking.t :=
  Booking.mk (Booking.id b) (Booking.workspace_type b) (Booking.date b)
    (Booking.time_slot b) (Booking.duration b) (Booking.customer_name b)
    (Booking.customer_email b) (Booking.customer_phone b)
    (Booking.customer_whatsapp b) (Booking.total_price b)
    (ud_status u)
    (match ud_confirmation_code u with
     | Some c => Some c
     | None => Booking.confirmation_code b
     end)
    (Booking.created_at b)
    (ud_updated_at u)
    (Booking.user_id b) (Booking.desk_number b).

(** What the outside answers during one call of [updateBookingStatus]. *)
Record UpdateEnv : Set := mkUpdateEnv {
  upd_now : Z;                              (* new Date() of updateData *)
  upd_error : option PostgrestError;        (* { error } of the update *)
  upd_fetch : FetchResult;                  (* await fetch(webhook) *)
  upd_timestamp : Z                         (* new Date() of the body *)
}.

Section Component.

(** [const { user } = useAuth()]; the component renders only for a
    non-null user. *)
Variable user : User.t.

(** [const [bookings, setBookings] = useState<Booking[]>([])]: the
    component's own copy of the bookings, as last fetched. *)
Variable bookings : list Booking.t.

(** The two versions differ in the webhook action and the toast text. *)
Variable action_of : BookingStatus -> string.
Variable success_text : BookingStatus -> string.

Definition updateBookingStatus (bookingId : string)
  (newStatus : BookingStatus) (confirmationCode : option string)
  (env : UpdateEnv) (d : Db.t) : Result.t :=
  let updateData :=
    mkUpdateData newStatus (upd_now env)
      (if truthy confirmationCode then confirmationCode else None) in
  match upd_error env with
  | Some error =>
      (* if (error) throw error; ... catch (error) *)
      Result.mk d (Some (toast_error "Failed to update booking status"))
        ["Error updating booking status:"] None false
  | None =>
      let d' :=
        Db.mk (update_eq_id Booking.id (apply_updateData updateData)
                 bookingId (Db.bookings d))
              (Db.user_sessions d) in
      match find_booking bookingId bookings with
      | Some booking =>
          Result.mk d' (Some (toast_success (success_text newStatus)))
            (webhook_console (upd_fetch env))
            (Some (mkBody (action_of newStatus) (Some bookingId) None None
                     (if truthy confirmationCode then confirmationCode
                      else None)
                     (or_else (Some (User.name user)) "Admin")
                     booking None (upd_timestamp env)))
            true
      | None =>
          Result.mk d' (Some (toast_success (success_text newStatus)))
            [] None true
      end
  end.

End Component.

(* ------------------------------------------------------------------------- *)
(** ** Helpers shared by the session handlers *)

(** [Math.ceil(a / b)] for an integer [a] and a positive integer [b]. *)
Definition Math_ceil_div (a b : Z) : Z := - ((- a) / b).

(** Decimal text of an integer, as a template literal prints it. *)
Definition number_text (z : Z) : string := NilZero.string_of_int (Z.to_int z).

(** [s.replace(c, d)] with one-character strings: the first occurrence only. *)
Fixpoint replace_first (c d : Ascii.ascii) (s : string) : string :=
  match s with
  | EmptyString => EmptyString
  | String a rest =>
      if Ascii.eqb a c then String d rest
      else String a (replace_first c d rest)
  end.

(** The object given to [.insert(...)] on [user_sessions]. *)
Record SessionInsert : Set := mkInsert {
  ins_user_id : string;
  ins_booking_id : string;
  ins_session_type : string;
  ins_started_by : string;
  ins_status : SessionStatus
}.

(** What the outside answers during one call of [startBookingSession].  The
    store fills the columns the insert leaves out: a fresh [id], [start_time]
    (its own clock), and empty [end_time], [duration_minutes], [ended_by]. *)
Record StartEnv : Set := mkStartEnv {
  st_check_error : option PostgrestError;   (* fault of the select *)
  st_insert_error : option PostgrestError;  (* { error } of the insert *)
  st_new_id : string;
  st_start_time : Z
}.

Definition inserted_row (i : SessionInsert) (env : StartEnv) : Session.t :=
  Session.mk (st_new_id env) (ins_user_id i) (Some (ins_booking_id i))
    (ins_session_type i) (st_start_time env) None None (ins_status i)
    (ins_started_by i) None false.

(** A select that the store fails returns no data and the fault; otherwise
    [maybeSingle] decides. *)
Definition select_maybeSingle {A : Type} (fault : option PostgrestError)
  (rows : list A) : option A * option PostgrestError :=
  match fault with
  | Some e => (None, Some e)
  | None => maybeSingle rows
  end.

Definition select_single {A : Type} (fault : option PostgrestError)
  (rows : list A) : A + PostgrestError :=
  match fault with
  | Some e => inr e
  | None => single rows
  end.

(** [checkError && checkError.code !== 'PGRST116'] *)
Definition fatal_check_error (e : option PostgrestError) : bool :=
  match e with
  | Some e => negb (code e =? "PGRST116")%string
  | None => false
  end.

Definition sessions_of_booking (bookingId : string) (l : list Session.t)
  : list Session.t :=
  filter (fun s => match Session.booking_id s with
                   | Some b => (b =? bookingId)%string
                   | None => false
                   end) l.

Definition active_sessions_of_booking (bookingId : string) (d : Db.t)
  : list Session.t :=
  filter (fun s => SessionStatus_eqb (Session.status s) active)
    (sessions_of_booking bookingId (Db.user_sessions d)).

Definition active_sessions_of_user (userId : string) (l : list Session.t)
  : list Session.t :=
  filter (fun s => (Session.user_id s =? userId)%string
                   && SessionStatus_eqb (Session.status s) active) l.

Definition find_session (sessionId : string) (d : Db.t) : option Session.t :=
  find (fun s => (Session.id s =? sessionId)%string) (Db.user_sessions d).

(** The second store call of [startBookingSession], the same in both
    versions: the insert, then the toast. *)
Definition start_insert (fail_text : string) (i : SessionInsert)
  (env : StartEnv) (d : Db.t) : Result.t :=
  match st_insert_error env with
  | Some error =>
      Result.mk d (Some (toast_error fail_text))
        ["Error starting booking session:"] None false
  | None =>
      Result.mk
        (Db.mk (Db.bookings d)
           (insert (inserted_row i env) (Db.user_sessions d)))
        (Some (toast_success "Booking session started successfully"))
        [] None true
  end.

(** The buttons of a booking row whose status is ['pending']. *)
Inductive PendingButton : Set :=
  | SendCode (code : string)
  | Confirm
  | Reject.

(** The call of [updateBookingStatus] a button makes; the buttons are
    rendered only under [booking.status === 'pending']. *)
Definition onClick (booking : Booking.t) (b : PendingButton)
  : option (string * BookingStatus * option string) :=
  match Booking.status booking with
  | pending =>
      Some (match b with
            | SendCode c => (Booking.id booking, code_sent, Some c)
            | Confirm => (Booking.id booking, confirmed, None)
            | Reject => (Booking.id booking, rejected, None)
            end)
  | _ => None
  end.

(** The allowed transitions of the booking life cycle, as the specification
    lists them.  The source has no such table; it is used below to say which
    calls fall inside it. *)
Definition allowed (from to : BookingStatus) : bool :=
  match from, to with
  | pending, code_sent | pending, confirmed | pending, rejected
  | code_sent, confirmed | code_sent, rejected
  | pending, cancelled | code_sent, cancelled | confirmed, cancelled => true
  | _, _ => false
  end.

(** The statistics shown on the cards. *)
Record DashboardStats : Set := mkStats {
  totalBookings : Z;
  pendingBookings : Z;
  confirmedBookings : Z;
  totalRevenue : Z;
  activeUsers : Z
}.

Definition count_status (s : BookingStatus) (l : list Booking.t) : Z :=
  Z.of_nat (List.length (filter (fun b => BookingStatus_eqb (Booking.status b) s) l)).

(** What the outside answers during one call of [endBookingSession]. *)
Record EndEnv : Set := mkEndEnv {
  end_select_error : option PostgrestError; (* fault of the select *)
  end_now : Z;                              (* const endTime = new Date() *)
  end_update_error : option PostgrestError; (* { error } of the update *)
  end_fetch : FetchResult;                  (* await fetch(webhook) *)
  end_timestamp : Z                         (* new Date() of the body *)
}.

(* ------------------------------------------------------------------------- *)
(** ** src/unnamed/part_000 *)

Module Part000.

Definition action_of (s : BookingStatus) : string :=
  "booking_" ++ status_text s ++ "_by_admin".

Definition success_text (s : BookingStatus) : string :=
  "Booking " ++ status_text s ++ " successfully".

Definition updateBookingStatus (user : User.t) (bookings : list Booking.t) :=
  updateBookingStatus user bookings action_of success_text.

(** [fetchDashboardData], the "Calculate stats" part.  [bookingsData] is
    the (nullable) reply of the bookings query, [activeUsersData] the
    [user_id] column of the sessions of the last thirty days. *)
Definition fetchDashboardData_stats (bookingsData : option (list Booking.t))
  (activeUsersData : option (list string)) : DashboardStats :=
  let data := match bookingsData with Some l => l | None => [] end in
  mkStats
    (or_zero (Z.of_nat (List.length data)))
    (or_zero (count_status pending data))
    (or_zero (count_status confirmed data))
    (or_zero (fold_left (fun sum b => sum + or_zero (Booking.total_price b))
                data 0))
    (Z.of_nat (List.length (nodup string_dec
                         (match activeUsersData with
                          | Some l => l
                          | None => []
                          end)))).

Section Handlers.
Variable user : User.t.
Variable bookings : list Booking.t.

(** [startBookingSession] up to and including its first store call (the
    existence check): either the handler is over, or it goes on to
    insert the row. *)
Definition startBookingSession_check (bookingId : string)
  (env : StartEnv) (d : Db.t) : Result.t + SessionInsert :=
  match find_booking bookingId bookings with
  | None =>
      (* throw new Error('Booking not found') *)
      inl (Result.mk d (Some (toast_error "Failed to start booking session"))
             ["Error starting booking session:"] None false)
  | Some booking =>
      let '(existingSession, checkError) :=
        select_maybeSingle (st_check_error env)
          (sessions_of_booking bookingId (Db.user_sessions d)) in
      if fatal_check_error checkError then
        inl (Result.mk d
               (Some (toast_error "Failed to start booking session"))
               ["Error starting booking session:"] None false)
      else
        match existingSession with
        | Some s =>
            if SessionStatus_eqb (Session.status s) active then
              inl (Result.mk d
                     (Some (toast_error
                              "Session is already active for this booking"))
                     [] None false)
            else
              inr (mkInsert (or_else (Booking.user_id booking) (User.id user))
                     bookingId "booking" (User.id user) active)
        | None =>
            inr (mkInsert (or_else (Booking.user_id booking) (User.id user))
                   bookingId "booking" (User.id user) active)
        end
  end.

Definition startBookingSession_insert :=
  start_insert "Failed to start booking session".

Definition startBookingSession (bookingId : string) (env : StartEnv)
  (d : Db.t) : Result.t :=
  match startBookingSession_check bookingId env d with
  | inl r => r
  | inr i => startBookingSession_insert i env d
  end.

(** The patch of [endBookingSession]. *)
Definition end_patch (endTime durationMinutes : Z) (s : Session.t)
  : Session.t :=
  Session.mk (Session.id s) (Session.user_id s) (Session.booking_id s)
    (Session.session_type s) (Session.start_time s)
    (Some endTime) (Some durationMinutes) completed
    (Session.started_by s) (Some (User.id user)) true.

(** [booking:booking_id ( ... )]: the booking the session refers to. *)
Definition joined_booking (s : Session.t) (d : Db.t) : option Booking.t :=
  match Session.booking_id s with
  | Some b => find_booking b (Db.bookings d)
  | None => None
  end.

Definition endBookingSession (sessionId : string) (env : EndEnv)
  (d : Db.t) : Result.t :=
  match select_single (end_select_error env)
          (filter (fun s => (Session.id s =? sessionId)%string)
             (Db.user_sessions d)) with
  | inr sessionError =>
      Result.mk d (Some (toast_error "Failed to end session"))
        ["Error ending session:"] None false
  | inl session =>
      let endTime := end_now env in
      let startTime := Session.start_time session in
      let durationMinutes := Math_ceil_div (endTime - startTime) (1000 * 60) in
      match end_update_error env with
      | Some updateError =>
          Result.mk d (Some (toast_error "Failed to end session"))
            ["Error ending session:"] None false
      | None =>
          let d' :=
            Db.mk (Db.bookings d)
              (update_eq_id Session.id (end_patch endTime durationMinutes)
                 sessionId (Db.user_sessions d)) in
          let msg :=
            "Session ended. Duration: "
            ++ number_text (durationMinutes / 60) ++ "h "
            ++ number_text (Z.rem durationMinutes 60) ++ "m" in
          match joined_booking session d with
          | Some booking =>
              Result.mk d' (Some (toast_success msg))
                (webhook_console (end_fetch env))
                (Some (mkBody "booking_session_ended_by_admin" None
                         (Some sessionId) (Some (Session.user_id session))
                         None (User.name user) booking
                         (Some (startTime, endTime, durationMinutes))
                         (end_timestamp env)))
                true
          | None =>
              (* session.booking is null: the TypeError raised while the
                 body is built is caught by the same catch *)
              Result.mk d' (Some (toast_success msg))
                ["Webhook failed:"] None true
          end
      end
  end.

End Handlers.

(** The "Start Session" button is rendered under
    [booking.status === 'confirmed' && !activeSession], where
    [activeSession] is looked up in the component's [activeSessions]. *)
Definition getBookingActiveSession (activeSessions : list Session.t)
  (bookingId : string) : option Session.t :=
  find (fun s => match Session.booking_id s with
                 | Some b => (b =? bookingId)%string
                 | None => false
                 end && SessionStatus_eqb (Session.status s) active)
    activeSessions.

Definition startButtonShown (activeSessions : list Session.t)
  (booking : Booking.t) : bool :=
  BookingStatus_eqb (Booking.status booking) confirmed
  && match getBookingActiveSession activeSessions (Booking.id booking) with
     | Some _ => false
     | None => true
     end.

End Part000.

(* ------------------------------------------------------------------------- *)
(** ** src/src/pages/AdminDashboard.tsx *)

Module Pages.

Definition action_of (s : BookingStatus) : string :=
  match s with
  | code_sent => "confirmation_code_sent"
  | _ => "booking_" ++ status_text s
  end.

Definition success_text (s : BookingStatus) : string :=
  "Booking " ++ replace_first "_"%char " "%char (status_text s)
  ++ " successfully!".

Definition updateBookingStatus (user : User.t) (bookings : list Booking.t) :=
  updateBookingStatus user bookings action_of success_text.

(** [fetchDashboardData], the "Calculate statistics" part.  [count] is the
    reply of the customers count query, made for admins only. *)
Definition fetchDashboardData_stats (user : User.t)
  (bookingsData : option (list Booking.t)) (count : option Z)
  : DashboardStats :=
  let allBookings := match bookingsData with Some l => l | None => [] end in
  mkStats
    (Z.of_nat (List.length allBookings))
    (count_status pending allBookings)
    (count_status confirmed allBookings)
    (fold_left (fun sum b => sum + Booking.total_price b)
       (filter (fun b => BookingStatus_eqb (Booking.status b) confirmed)
          allBookings) 0)
    (match User.role user with
     | admin => match count with Some c => or_zero c | None => 0 end
     | _ => 0
     end).

Section Handlers.
Variable user : User.t.

Definition startBookingSession_check (bookingId : string)
  (userId : option string) (env : StartEnv) (d : Db.t)
  : Result.t + SessionInsert :=
  if negb (truthy userId) then
    inl (Result.mk d
           (Some (toast_error
                    "Cannot start session: No user associated with this booking"))
           [] None false)
  else
    let uid := or_else userId "" in
    let '(existingSession, checkError) :=
      select_maybeSingle (st_check_error env)
        (active_sessions_of_user uid (Db.user_sessions d)) in
    if fatal_check_error checkError then
      inl (Result.mk d (Some (toast_error "Failed to start session"))
             ["Error starting booking session:"] None false)
    else
      match existingSession with
      | Some _ =>
          inl (Result.mk d
                 (Some (toast_error "User already has an active session"))
                 [] None false)
      | None =>
          inr (mkInsert uid bookingId "booking" (User.id user) active)
      end.

Definition startBookingSession_insert :=
  start_insert "Failed to start session".

Definition startBookingSession (bookingId : string)
  (userId : option string) (env : StartEnv) (d : Db.t) : Result.t :=
  match startBookingSession_check bookingId userId env d with
  | inl r => r
  | inr i => startBookingSession_insert i env d
  end.

End Handlers.

(** [activeBookingSessions.some(session => session.booking_id === bookingId)] *)
Definition isBookingSessionActive (activeBookingSessions : list Session.t)
  (bookingId : string) : bool :=
  existsb (fun s => match Session.booking_id s with
                    | Some b => (b =? bookingId)%string
                    | None => false
                    end) activeBookingSessions.

(** The "Start Session" button is rendered under
    [booking.status === 'confirmed' && booking.user_id] when
    [isBookingSessionActive(booking.id)] is false, and calls
    [startBookingSession(booking.id, booking.user_id)]. *)
Definition startButtonShown (activeBookingSessions : list Session.t)
  (booking : Booking.t) : bool :=
  BookingStatus_eqb (Booking.status booking) confirmed
  && truthy (Booking.user_id booking)
  && negb (isBookingSessionActive activeBookingSessions (Booking.id booking)).

End Pages.

(* ------------------------------------------------------------------------- *)
(** ** Sample data *)

Module Sample.

Definition operator : User.t :=
  User.mk "staff-1" "sam@example.org" "Sam" None staff.

Definition other_operator : User.t :=
  User.mk "admin-7" "ada@example.org" "Ada" None admin.

Definition booking (id : string) (price : Z) (st : BookingStatus)
  (code uid : option string) : Booking.t :=
  Booking.mk id "Hot Desk" "2025-03-01" "9:00 AM" "2 hours" "Nour"
    "nour@example.org" "0100" "0100" price st code 0 0 uid None.

(** [confirmed:100, confirmed:200, confirmed:300, pending:50] *)
Definition four_bookings : list Booking.t :=
  [ booking "b1" 100 confirmed None None;
    booking "b2" 200 confirmed None None;
    booking "b3" 300 confirmed None None;
    booking "b4" 50 pending None None ].

Definition session (id : string) (bookingId : string) (start : Z)
  (st : SessionStatus) : Session.t :=
  Session.mk id "cust-1" (Some bookingId) "booking" start None None st
    "staff-1" None false.

Definition quiet_update (now : Z) : UpdateEnv :=
  mkUpdateEnv now None (Response 200) now.

Definition quiet_start (new_id : string) (now : Z) : StartEnv :=
  mkStartEnv None None new_id now.

Definition quiet_end (now : Z) : EndEnv :=
  mkEndEnv None now None (Response 200) now.

(** One booking, as the store has it after a code was sent, and as a
    dashboard that has not fetched since still shows it. *)
Definition db_code_sent : Db.t :=
  Db.mk [booking "b1" 100 code_sent (Some "AB12CD") (Some "cust-1")] [].

Definition db_pending : Db.t :=
  Db.mk [booking "b1" 100 pending None (Some "cust-1")] [].

Definition db_rejected : Db.t :=
  Db.mk [booking "b1" 100 rejected None (Some "cust-1")] [].

Definition db_confirmed : Db.t :=
  Db.mk [booking "b1" 100 confirmed None (Some "cust-1")] [].

Definition shown_pending : list Booking.t :=
  [booking "b1" 100 pending None (Some "cust-1")].

Definition shown_confirmed : list Booking.t :=
  [booking "b1" 100 confirmed None (Some "cust-1")].

Definition db_one_active_session : Db.t :=
  Db.mk [booking "b1" 100 confirmed None (Some "cust-1")]
    [session "s1" "b1" 0 active].

End Sample.

(* ------------------------------------------------------------------------- *)
(** ** Scenarios *)

(** Sum of [total_price] over the bookings with status confirmed, as the
    specification words it. *)
Fixpoint revenue_of_confirmed (l : list Booking.t) : Z :=
  match l with
  | [] => 0
  | b :: rest =>
      (if BookingStatus_eqb (Booking.status b) confirmed
       then Booking.total_price b else 0) + revenue_of_confirmed rest
  end.

(** Sum of [total_price] over all the bookings. *)
Fixpoint revenue_of_all (l : list Booking.t) : Z :=
  match l with
  | [] => 0
  | b :: rest => Booking.total_price b + revenue_of_all rest
  end.

(** Two handlers that each make a check and then an insert, started by two
    operators at the same time: both checks reach the store before either
    insert does. *)
Definition both_check_then_both_insert
  (check1 check2 : Db.t -> Result.t + SessionInsert)
  (insert1 insert2 : SessionInsert -> Db.t -> Result.t)
  (d : Db.t) : Result.t * Result.t * Db.t :=
  let c1 := check1 d in
  let c2 := check2 d in
  let '(r1, d1) :=
    match c1 with
    | inl r => (r, d)
    | inr i => let r := insert1 i d in (r, Result.db r)
    end in
  let '(r2, d2) :=
    match c2 with
    | inl r => (r, d1)
    | inr i => let r := insert2 i d1 in (r, Result.db r)
    end in
  (r1, r2, d2).

(* ------------------------------------------------------------------------- *)
(** ** Searching and filtering the bookings list *)

(** [s.includes(t)]: [t] occurs in [s] as a contiguous run of characters. *)
Fixpoint includes (s t : string) : bool :=
  if String.prefix t s then true
  else match s with
       | EmptyString => false
       | String _ rest => includes rest t
       end.

(** [toLowerCase] on the letters A to Z, other characters kept: what the
    string method does on ASCII text. *)
Definition lower_ascii (c : ascii) : ascii :=
  let n := nat_of_ascii c in
  if (Nat.leb 65 n && Nat.leb n 90)%bool then ascii_of_nat (n + 32) else c.

Fixpoint toLowerCase_ascii (s : string) : string :=
  match s with
  | EmptyString => EmptyString
  | String c rest => String (lower_ascii c) (toLowerCase_ascii rest)
  end.

(** [trim] for the ASCII white space (tab, line feed, vertical tab, form
    feed, carriage return, space). *)
Definition is_space (c : ascii) : bool :=
  let n := nat_of_ascii c in
  ((Nat.leb 9 n && Nat.leb n 13) || Nat.eqb n 32)%bool.

Fixpoint drop_spaces (l : list ascii) : list ascii :=
  match l with
  | c :: rest => if is_space c then drop_spaces rest else l
  | [] => []
  end.

Definition trim_ascii (s : string) : string :=
  string_of_list_ascii
    (rev (drop_spaces (rev (drop_spaces (list_ascii_of_string s))))).

Module Part000Ui.

Section StringMethods.

(** [String.prototype.toLowerCase], whatever it does to each string. *)
Variable toLowerCase : string -> string.

(** The predicate of the search filter of [filterBookings]. *)
Definition matches_search (searchTerm : string) (booking : Booking.t) : bool :=
  let searchLower := toLowerCase searchTerm in
  includes (toLowerCase (Booking.customer_name booking)) searchLower
  || includes (toLowerCase (Booking.customer_email booking)) searchLower
  || includes (Booking.customer_phone booking) searchTerm
  || includes (Booking.customer_whatsapp booking) searchTerm
  || includes (toLowerCase (Booking.workspace_type booking)) searchLower
  || includes (toLowerCase (Booking.id booking)) searchLower
  || includes (Booking.date booking) searchTerm
  || includes (toLowerCase (Booking.time_slot booking)) searchLower
  || includes (toLowerCase (Booking.duration booking)) searchLower.

(** [filterBookings]: the list given to [setFilteredBookings]. *)
Definition filterBookings (bookings : list Booking.t)
  (searchTerm statusFilter : string) : list Booking.t :=
  let filtered := bookings in
  let filtered :=
    if negb (searchTerm =? "")%string
    then filter (matches_search searchTerm) filtered
    else filtered in
  let filtered :=
    if negb (statusFilter =? "all")%string
    then filter (fun booking =>
                   (status_text (Booking.status booking) =? statusFilter)%string)
           filtered
    else filtered in
  filtered.

End StringMethods.

End Part000Ui.

Module PagesUi.

Section StringMethods.

Variable toLowerCase : string -> string.
Variable trim : string -> string.

Definition matches_search (searchTerm : string) (booking : Booking.t) : bool :=
  let searchLower := toLowerCase searchTerm in
  includes (toLowerCase (Booking.workspace_type booking)) searchLower
  || includes (toLowerCase (Booking.customer_name booking)) searchLower
  || includes (toLowerCase (Booking.customer_email booking)) searchLower
  || includes (Booking.customer_phone booking) searchTerm
  || includes (Booking.customer_whatsapp booking) searchTerm
  || includes (toLowerCase (status_text (Booking.status booking))) searchLower
  || includes (Booking.date booking) searchTerm
  || includes (toLowerCase (Booking.time_slot booking)) searchLower
  || includes (toLowerCase (Booking.duration booking)) searchLower
  || match Booking.confirmation_code booking with
     | Some c => negb (c =? "")%string && includes c searchTerm
     | None => false
     end
  || includes (Booking.id booking) searchTerm.

Definition filterBookings (bookings : list Booking.t) (searchTerm : string)
  : list Booking.t :=
  if (trim searchTerm =? "")%string then bookings
  else filter (matches_search searchTerm) bookings.

(** [getTodaysBookings]; [today] is
    [new Date().toISOString().split('T')[0]]. *)
Definition getTodaysBookings (bookings : list Booking.t) (today : string)
  : list Booking.t :=
  filter (fun booking => (Booking.date booking =? today)%string) bookings.

End StringMethods.

End PagesUi.

(* ------------------------------------------------------------------------- *)
(** ** Site settings (part_000) *)

(** A row of the [site_settings] table. *)
Module Setting.
Record t : Set := mk {
  key : string;
  value : string;
  updated_at : Z
}.
End Setting.

(** The [settings] state of the component.  It starts with these three keys,
    and [fetchSettings] asks the store for these three keys only, so the
    object never gets another key. *)
Record Settings : Set := mkSettings {
  total_desks : string;
  hourly_slots : string;
  booking_durations : string
}.

Module Part000Settings.

(** The initial state. *)
Definition initial : Settings :=
  mkSettings "6"
    "9:00 AM,10:00 AM,11:00 AM,12:00 PM,1:00 PM,2:00 PM,3:00 PM,4:00 PM,5:00 PM"
    "1 hour,2 hours,3 hours,4 hours,5 hours,6 hours".

Definition keys : list string :=
  ["total_desks"; "hourly_slots"; "booking_durations"].

(** [acc[k] = v] on an object held as its list of entries, in insertion
    order. *)
Fixpoint assign (k v : string) (acc : list (string * string))
  : list (string * string) :=
  match acc with
  | [] => [(k, v)]
  | (k', v') :: rest =>
      if (k' =? k)%string then (k', v) :: rest
      else (k', v') :: assign k v rest
  end.

Fixpoint lookup (k : string) (acc : list (string * string)) : option string :=
  match acc with
  | [] => None
  | (k', v') :: rest => if (k' =? k)%string then Some v' else lookup k rest
  end.

(** [.select('key, value').in('key', [...])] *)
Definition select_in_keys (table : list Setting.t) : list Setting.t :=
  filter (fun r => existsb (fun k => (Setting.key r =? k)%string) keys) table.

(** [data.reduce((acc, setting) => { acc[setting.key] = setting.value;
    return acc; }, {})] *)
Definition settingsMap (data : list Setting.t) : list (string * string) :=
  fold_left (fun acc setting =>
               assign (Setting.key setting) (Setting.value setting) acc)
    data [].

(** One key of [{ ...prev, ...settingsMap }]. *)
Definition spread (m : list (string * string)) (k prev : string) : string :=
  match lookup k m with
  | Some v => v
  | None => prev
  end.

(** [fetchSettings]: the new [settings] state and what is logged. *)
Definition fetchSettings (prev : Settings) (error : option PostgrestError)
  (table : list Setting.t) : Settings * list string :=
  match error with
  | Some _ => (prev, ["Error fetching settings:"])
  | None =>
      let m := settingsMap (select_in_keys table) in
      (mkSettings (spread m "total_desks" (total_desks prev))
         (spread m "hourly_slots" (hourly_slots prev))
         (spread m "booking_durations" (booking_durations prev)),
       [])
  end.

(** [.upsert(update, { onConflict: 'key' })]: the row with that key is
    replaced, or the row is added when there is none. *)
Definition upsert (update : Setting.t) (table : list Setting.t)
  : list Setting.t :=
  if existsb (fun r => (Setting.key r =? Setting.key update)%string) table
  then map (fun r => if (Setting.key r =? Setting.key update)%string
                     then update else r) table
  else table ++ [update].

(** What the outside answers during [saveSettings]: the clock reading taken
    for the [n]-th entry and the store's reply to the [n]-th upsert. *)
Record SaveEnv : Set := mkSaveEnv {
  save_now : nat -> Z;
  save_error : nat -> option PostgrestError
}.

(** [Object.entries(settings).map(...)] *)
Definition updates (settings : Settings) (env : SaveEnv) : list Setting.t :=
  [ Setting.mk "total_desks" (total_desks settings) (save_now env 0%nat);
    Setting.mk "hourly_slots" (hourly_slots settings) (save_now env 1%nat);
    Setting.mk "booking_durations" (booking_durations settings)
      (save_now env 2%nat) ].

(** The [for] loop: one upsert after the other, left at the first error. *)
Fixpoint upsert_each (us : list Setting.t) (n : nat) (env : SaveEnv)
  (table : list Setting.t) : list Setting.t * option PostgrestError :=
  match us with
  | [] => (table, None)
  | update :: rest =>
      match save_error env n with
      | Some error => (table, Some error)
      | None => upsert_each rest (S n) env (upsert update table)
      end
  end.

(** [saveSettings]: the table afterwards, the toast and what is logged. *)
Definition saveSettings (settings : Settings) (env : SaveEnv)
  (table : list Setting.t) : list Setting.t * Toast * list string :=
  match upsert_each (updates settings env) 0 env table with
  | (table', None) => (table', toast_success "Settings saved successfully", [])
  | (table', Some _) =>
      (table', toast_error "Failed to save settings",
       ["Error saving settings:"])
  end.

End Part000Settings.

(* ------------------------------------------------------------------------- *)
(** ** src/src/contexts/AuthContext.tsx *)

Module AuthContext.

(** [user_metadata] of an auth user: the keys the context reads.  A role
    outside ['admin' | 'staff' | 'customer'] is not represented. *)
Record Metadata : Set := mkMetadata {
  md_name : option string;
  md_whatsapp : option string;
  md_role : option Role
}.

(** [SupabaseUser]: the auth record. *)
Record SupabaseUser : Set := mkSupabaseUser {
  su_id : string;
  su_email : option string;
  user_metadata : option Metadata
}.

(** [email.split('@')[0]]: the text before the first at sign. *)
Fixpoint before_at (s : string) : string :=
  match s with
  | EmptyString => EmptyString
  | String c rest =>
      if Ascii.eqb c "@"%char then EmptyString else String c (before_at rest)
  end.

Definition mapSupabaseUser (supabaseUser : SupabaseUser) : User.t :=
  let metadata :=
    match user_metadata supabaseUser with
    | Some m => m
    | None => mkMetadata None None None
    end in
  User.mk (su_id supabaseUser)
    (or_else (su_email supabaseUser) "")
    (or_else (md_name metadata)
       (or_else (option_map before_at (su_email supabaseUser)) "User"))
    (md_whatsapp metadata)
    (match md_role metadata with Some r => r | None => customer end).

(** What an operation of the context leaves behind: the [users] table, the
    [user] state, what was logged, the message of the error thrown to the
    caller (if any) and the data given to [auth.updateUser] (if called). *)
Record Outcome : Set := mkOutcome {
  users : list User.t;
  user : option User.t;
  console : list string;
  thrown : option string;
  updateUser_data : option (string * option string * Role)
}.

(** [.from('users').select('*').eq('id', id).single()] *)
Definition select_profile (fault : option PostgrestError) (id : string)
  (table : list User.t) : User.t + PostgrestError :=
  select_single fault (filter (fun u => (User.id u =? id)%string) table).

(** What the outside answers during [login]: the reply of
    [signInWithPassword] ([data.user], or the message of the error), the
    faults of the profile query and of the insert, and the error of
    [updateUser]. *)
Record LoginEnv : Set := mkLoginEnv {
  signIn : option SupabaseUser + string;
  login_profile_fault : option PostgrestError;
  login_insert_error : option PostgrestError;
  login_updateUser_error : option string
}.

Definition login (env : LoginEnv) (table : list User.t)
  (current : option User.t) : Outcome :=
  match signIn env with
  | inr msg => mkOutcome table current [] (Some msg) None
  | inl None => mkOutcome table current [] None None
  | inl (Some data_user) =>
      let '(table', currentUserData, log1) :=
        match select_profile (login_profile_fault env) (su_id data_user) table with
        | inr profileError =>
            let newUser := mapSupabaseUser data_user in
            match login_insert_error env with
            | Some insertError =>
                (table, newUser, ["Error creating user profile:"])
            | None => (insert newUser table, newUser, [])
            end
        | inl userProfile => (table, userProfile, [])
        end in
      let log2 :=
        match login_updateUser_error env with
        | Some _ => ["Error updating user metadata:"]
        | None => []
        end in
      mkOutcome table' (Some currentUserData) (log1 ++ log2) None
        (Some (User.name currentUserData, User.whatsapp currentUserData,
               User.role currentUserData))
  end.

(** [register(email, password, name, whatsapp)]; [signUp] is the reply of
    [auth.signUp]. *)
Definition register (email name whatsapp : string)
  (signUp : option SupabaseUser + string)
  (insert_error : option PostgrestError) (table : list User.t)
  (current : option User.t) : Outcome :=
  match signUp with
  | inr msg => mkOutcome table current [] (Some msg) None
  | inl None => mkOutcome table current [] None None
  | inl (Some data_user) =>
      let newUser :=
        User.mk (su_id data_user) email name (Some whatsapp) customer in
      match insert_error with
      | Some _ =>
          mkOutcome table (Some newUser) ["Error creating user profile:"]
            None None
      | None => mkOutcome (insert newUser table) (Some newUser) [] None None
      end
  end.

(** [refreshUserSession]; [session] is [session?.user]. *)
Definition refreshUserSession (session : option SupabaseUser)
  (profile_fault : option PostgrestError) (table : list User.t) : Outcome :=
  match session with
  | Some session_user =>
      match select_profile profile_fault (su_id session_user) table with
      | inr profileError =>
          mkOutcome table (Some (mapSupabaseUser session_user)) [] None None
      | inl userProfile => mkOutcome table (Some userProfile) [] None None
      end
  | None => mkOutcome table None [] None None
  end.

(** The [onAuthStateChange] listener: the [user] state it sets. *)
Definition onAuthStateChange (session : option SupabaseUser) : option User.t :=
  option_map mapSupabaseUser session.

End AuthContext.

(** The guard at the top of [AdminDashboard], in both versions: the
    dashboard is rendered for a signed-in admin or staff member, everybody
    else is sent to the login page. *)
Definition dashboardShown (user : option User.t) : bool :=
  match user with
  | None => false
  | Some u =>
      match User.role u with
      | admin | staff => true
      | customer => false
      end
  end.

(* ------------------------------------------------------------------------- *)
(** ** Any sequence of handler calls *)

(** One call of one of the handlers that write to the store, by any operator
    with any dashboard state, any arguments and any answers from outside. *)
Inductive handler_step : Db.t -> Db.t -> Prop :=
  | step_updateBookingStatus user bookings action_of success_text bookingId
      newStatus confirmationCode env d :
      handler_step d
        (Result.db (updateBookingStatus user bookings action_of success_text
                      bookingId newStatus confirmationCode env d))
  | step_startBookingSession user bookings bookingId env d :
      handler_step d
        (Result.db (Part000.startBookingSession user bookings bookingId env d))
  | step_startBookingSession_pages user bookingId userId env d :
      handler_step d
        (Result.db (Pages.startBookingSession user bookingId userId env d))
  | step_endBookingSession user sessionId env d :
      handler_step d
        (Result.db (Part000.endBookingSession user sessionId env d)).

(** Any number of such calls, one after the other. *)
Inductive handler_steps : Db.t -> Db.t -> Prop :=
  | steps_none d : handler_steps d d
  | steps_more d1 d2 d3 :
      handler_steps d1 d2 -> handler_step d2 d3 -> handler_steps d1 d3.

(** The columns of a booking that no handler writes. *)
Definition booking_as_created (b : Booking.t) : Booking.t :=
  Booking.mk (Booking.id b) (Booking.workspace_type b) (Booking.date b)
    (Booking.time_slot b) (Booking.duration b) (Booking.customer_name b)
    (Booking.customer_email b) (Booking.customer_phone b)
    (Booking.customer_whatsapp b) (Booking.total_price b)
    pending None (Booking.created_at b) 0
    (Booking.user_id b) (Booking.desk_number b).

(** The columns of a session that are set when it starts. *)
Definition session_as_started (s : Session.t) : Session.t :=
  Session.mk (Session.id s) (Session.user_id s) (Session.booking_id s)
    (Session.session_type s) (Session.start_time s) None None active
    (Session.started_by s) None false.

(** What a later state of a session row may differ in: nothing that was set
    at its start, and a completed session is still completed. *)
Definition session_kept (s s' : Session.t) : Prop :=
  session_as_started s' = session_as_started s
  /\ (Session.status s = completed -> Session.status s' = completed).

(** What a later state of a booking row may differ in: the status, the
    confirmation code and [updated_at]. *)
Definition booking_kept (b b' : Booking.t) : Prop :=
  booking_as_created b' = booking_as_created b.

(** A later state of the [user_sessions] table: the rows it had, each kept
    in the sense above, followed by the rows added since. *)
Definition sessions_grow (l l' : list Session.t) : Prop :=
  exists kept added, l' = (kept ++ added)%list /\ Forall2 session_kept l kept.

(* ------------------------------------------------------------------------- *)
(** ** Tabs and panels *)

Module Tab.
Inductive t : Set :=
  | overview | bookings | sessions | subscriptions | discounts | settings.
End Tab.

Module Part000Tabs.

(** The tab buttons rendered for a role. *)
Definition tabs (role : Role) : list Tab.t :=
  [Tab.overview; Tab.bookings; Tab.sessions]
  ++ match role with
     | admin => [Tab.subscriptions; Tab.discounts; Tab.settings]
     | _ => []
     end.

(** Whether a panel is rendered under [activeTab] for a role. *)
Definition panelShown (activeTab : Tab.t) (role : Role) : bool :=
  match activeTab with
  | Tab.overview | Tab.bookings | Tab.sessions => true
  | Tab.subscriptions | Tab.discounts | Tab.settings =>
      match role with admin => true | _ => false end
  end.

(** The revenue and active users cards are rendered for admins only. *)
Definition moneyCardsShown (role : Role) : bool :=
  match role with admin => true | _ => false end.

End Part000Tabs.

Module PagesTabs.

Definition tabs (role : Role) : list Tab.t :=
  [Tab.overview; Tab.bookings; Tab.sessions]
  ++ match role with
     | admin => [Tab.subscriptions; Tab.discounts]
     | _ => []
     end.

(** This version has no settings tab: its [activeTab] has five values. *)
Definition panelShown (activeTab : Tab.t) (role : Role) : bool :=
  match activeTab with
  | Tab.overview | Tab.bookings | Tab.sessions => true
  | Tab.subscriptions | Tab.discounts =>
      match role with admin => true | _ => false end
  | Tab.settings => false
  end.

Definition moneyCardsShown (role : Role) : bool :=
  match role with admin => true | _ => false end.

End PagesTabs.

(* ------------------------------------------------------------------------- *)
(** ** Commit time, interleaving and exact sums *)

(** The duration as the specification words it: the ceiling, in minutes, of
    the time from the start of the session to [commit_time], the instant (on
    the store's clock) at which the store applies the update of
    [endBookingSession].  The handler never reads that instant: what it
    writes is computed from [end_now], the operator's clock read before the
    update is sent. *)
Definition duration_to_commit (s : Session.t) (commit_time : Z) : Z :=
  Math_ceil_div (commit_time - Session.start_time s) (1000 * 60).

(** A start handler whose two store calls are apart in time: the check reads
    the store as [d], the insert (if the check lets the handler go on) is
    applied to the store as [d'], which other calls may have written to in
    between.  The pair is the handler's result and the store after it; a
    handler that stops at its check writes nothing.  With [d' = d] this is
    the handler run without anything in between. *)
Definition check_then_insert (check : Db.t -> Result.t + SessionInsert)
  (insert_row : SessionInsert -> Db.t -> Result.t) (d d' : Db.t)
  : Result.t * Db.t :=
  match check d with
  | inl r => (r, d')
  | inr i => let r := insert_row i d' in (r, Result.db r)
  end.

(** [Number.MAX_SAFE_INTEGER] *)
Definition MAX_SAFE_INTEGER : Z := 9007199254740991.

(** Prices that JavaScript adds without rounding: integers that are not
    negative and whose total is a safe integer.  Every partial sum of either
    [reduce] is then a safe integer too, so the number the code computes is
    the integer sum. *)
Definition exact_sums (l : list Booking.t) : Prop :=
  (forall b, In b l -> 0 <= Booking.total_price b)
  /\ revenue_of_all l <= MAX_SAFE_INTEGER.

(* ------------------------------------------------------------------------- *)
(** ** Facts about the store primitives *)

Section StoreFacts.

Context {A : Type}.
Variable row_id : A -> string.
Variable patch : A -> A.
Hypothesis patch_keeps_id : forall r, row_id (patch r) = row_id r.

Lemma filter_update_eq_id (key key' : string) (rows : list A) :
  filter (fun r => (row_id r =? key')%string)
    (update_eq_id row_id patch key rows)
  = map (fun r => if (row_id r =? key)%string then patch r else r)
      (filter (fun r => (row_id r =? key')%string) rows).
Proof.
  unfold update_eq_id.
  induction rows as [|r rows IH]; simpl; [reflexivity|].
  assert (E : row_id (if (row_id r =? key)%string then patch r else r)
              = row_id r).
  { destruct (row_id r =? key)%string; [apply patch_keeps_id|reflexivity]. }
  rewrite E.
  destruct (row_id r =? key')%string; simpl; rewrite IH; reflexivity.
Qed.

Lemma find_update_eq_id (key key' : string) (rows : list A) :
  find (fun r => (row_id r =? key')%string)
    (update_eq_id row_id patch key rows)
  = option_map (fun r => if (row_id r =? key)%string then patch r else r)
      (find (fun r => (row_id r =? key')%string) rows).
Proof.
  unfold update_eq_id.
  induction rows as [|r rows IH]; simpl; [reflexivity|].
  assert (E : row_id (if (row_id r =? key)%string then patch r else r)
              = row_id r).
  { destruct (row_id r =? key)%string; [apply patch_keeps_id|reflexivity]. }
  rewrite E.
  destruct (row_id r =? key')%string; simpl; [reflexivity|apply IH].
Qed.

Lemma find_eq_id_some (key : string) (rows : list A) (r : A) :
  find (fun r => (row_id r =? key)%string) rows = Some r ->
  row_id r = key.
Proof.
  intros H. apply find_some in H. destruct H as [_ H].
  now apply String.eqb_eq.
Qed.

End StoreFacts.

Lemma apply_updateData_id (u : UpdateData) (b : Booking.t) :
  Booking.id (apply_updateData u b) = Booking.id b.
Proof. reflexivity. Qed.

(** The ceiling: the least whole number of [b]s that covers [a]. *)
Lemma Math_ceil_div_spec (a b : Z) :
  0 < b ->
  b * (Math_ceil_div a b - 1) < a <= b * Math_ceil_div a b.
Proof.
  intros Hb. unfold Math_ceil_div.
  pose proof (Z.mul_div_le (- a) b Hb) as Hlo.
  pose proof (Z.mul_succ_div_gt (- a) b Hb) as Hhi.
  nia.
Qed.

Lemma Math_ceil_div_unique (a b q : Z) :
  0 < b -> b * (q - 1) < a <= b * q -> Math_ceil_div a b = q.
Proof.
  intros Hb Hq. pose proof (Math_ceil_div_spec a b Hb) as H. nia.
Qed.

(* ------------------------------------------------------------------------- *)
(** ** Session duration *)

Lemma endBookingSession_succeeded_inv (user : User.t) (sessionId : string)
  (env : EndEnv) (d : Db.t) :
  succeeded (Part000.endBookingSession user sessionId env d) = true ->
  exists s,
    filter (fun s => (Session.id s =? sessionId)%string) (Db.user_sessions d)
    = [s]
    /\ end_select_error env = None /\ end_update_error env = None.
Proof.
  unfold Part000.endBookingSession, select_single, single.
  destruct (end_select_error env); [discriminate|].
  destruct (filter _ (Db.user_sessions d)) as [|s [|s' l]];
    try discriminate.
  destruct (end_update_error env); [discriminate|].
  intros _. exists s. repeat split.
Qed.

Lemma filter_eq_id_singleton_find (sessionId : string) (d : Db.t)
  (s : Session.t) :
  filter (fun s => (Session.id s =? sessionId)%string) (Db.user_sessions d)
  = [s] ->
  find_session sessionId d = Some s.
Proof.
  unfold find_session.
  induction (Db.user_sessions d) as [|x l IH]; simpl; [discriminate|].
  destruct (Session.id x =? sessionId)%string.
  - intros H. now inversion H.
  - exact IH.
Qed.

Lemma endBookingSession_db (user : User.t) (sessionId : string)
  (env : EndEnv) (d : Db.t) (s : Session.t) :
  filter (fun s => (Session.id s =? sessionId)%string) (Db.user_sessions d)
  = [s] ->
  end_select_error env = None -> end_update_error env = None ->
  let r := Part000.endBookingSession user sessionId env d in
  succeeded r = true
  /\ Db.bookings (Result.db r) = Db.bookings d
  /\ filter (fun s => (Session.id s =? sessionId)%string)
       (Db.user_sessions (Result.db r))
     = [Part000.end_patch user (end_now env)
          (Math_ceil_div (end_now env - Session.start_time s) (1000 * 60)) s].
Proof.
  intros Hs He Hu. unfold Part000.endBookingSession, select_single.
  rewrite He, Hs. simpl single. cbv iota. rewrite Hu.
  assert (Hid : Session.id s = sessionId).
  { assert (In s [s]) as Hin by (left; reflexivity).
    rewrite <- Hs in Hin. apply filter_In in Hin.
    now apply String.eqb_eq. }
  assert (Hf : filter (fun s0 => (Session.id s0 =? sessionId)%string)
                 (update_eq_id Session.id
                    (Part000.end_patch user (end_now env)
                       (Math_ceil_div (end_now env - Session.start_time s)
                          (1000 * 60))) sessionId (Db.user_sessions d))
               = [Part000.end_patch user (end_now env)
                    (Math_ceil_div (end_now env - Session.start_time s)
                       (1000 * 60)) s]).
  { rewrite filter_update_eq_id by reflexivity.
    rewrite Hs. simpl. rewrite Hid, String.eqb_refl. reflexivity. }
  destruct (Part000.joined_booking s d); simpl; repeat split; exact Hf.
Qed.

(** C7 (as amended).  Every session that [endBookingSession] ends gets, in
    the same write, as [end_time] the operator's clock as the handler read it
    before it sent the update, and as [duration_minutes] the ceiling in
    minutes of (that end time - start time): the least [m] with
    elapsed <= m minutes.  An end time 125 seconds after the start time
    gives 3.  The time at which the store commits the update does not enter:
    when it is not before the end time read, the stored duration is at most
    the ceiling of (commit time - start time). *)
Theorem endBookingSession_duration_is_ceiling (user : User.t)
  (sessionId : string) (env : EndEnv) (d : Db.t) :
  let r := Part000.endBookingSession user sessionId env d in
  succeeded r = true ->
  exists s s' m,
    find_session sessionId d = Some s
    /\ find_session sessionId (Result.db r) = Some s'
    /\ Session.start_time s' = Session.start_time s
    /\ Session.end_time s' = Some (end_now env)
    /\ Session.duration_minutes s' = Some m
    /\ Session.status s' = completed
    /\ 60000 * (m - 1) < end_now env - Session.start_time s <= 60000 * m
    /\ (end_now env - Session.start_time s = 125 * 1000 -> m = 3)
    /\ (forall commit_time,
          end_now env <= commit_time -> m <= duration_to_commit s commit_time).
Proof.
  intros r Hok.
  destruct (endBookingSession_succeeded_inv _ _ _ _ Hok) as (s & Hs & He & Hu).
  destruct (endBookingSession_db user sessionId env d s Hs He Hu)
    as (_ & _ & Hf).
  exists s, (Part000.end_patch user (end_now env)
               (Math_ceil_div (end_now env - Session.start_time s) (1000 * 60))
               s),
    (Math_ceil_div (end_now env - Session.start_time s) (1000 * 60)).
  split; [now apply filter_eq_id_singleton_find|].
  split; [now apply filter_eq_id_singleton_find|].
  repeat (split; [reflexivity|]).
  change (1000 * 60) with 60000.
  split; [apply Math_ceil_div_spec; lia|].
  split; [intros E; rewrite E; reflexivity|].
  intros commit_time Hlater. unfold duration_to_commit.
  change (1000 * 60) with 60000.
  pose proof (Math_ceil_div_spec (end_now env - Session.start_time s) 60000
                ltac:(lia)).
  pose proof (Math_ceil_div_spec (commit_time - Session.start_time s) 60000
                ltac:(lia)).
  nia.
Qed.

(** On the sample data: a session ended 125 seconds after its start. *)
Lemma endBookingSession_duration_is_ceiling_witness :
  let d := Db.mk [Sample.booking "b1" 100 confirmed None None]
             [Sample.session "s1" "b1" 1700000000000 active] in
  let env := Sample.quiet_end (1700000000000 + 125 * 1000) in
  exists s',
    find_session "s1"
      (Result.db (Part000.endBookingSession Sample.operator "s1" env d))
    = Some s'
    /\ Session.duration_minutes s' = Some 3.
Proof.
  intros d env.
  destruct (endBookingSession_duration_is_ceiling Sample.operator "s1" env d
              eq_refl)
    as (s & s' & m & Hs & Hs' & _ & _ & Hm & _ & _ & H125 & _).
  exists s'. split; [exact Hs'|].
  rewrite Hm. f_equal. apply H125.
  vm_compute in Hs. inversion Hs. reflexivity.
Defined.

(** C7, counterexample.  A session started at time 0.  The operator's
    browser reads its clock 119 seconds later and sends the update, which the
    store commits at 121 seconds: the duration stored is 2 minutes, where the
    ceiling of (commit time - start time) is 3.  When the update takes until
    125 seconds after a clock read at 5 seconds, the duration stored is 1,
    not 3.  And when the operator's clock is ten minutes behind the store's,
    an end committed 125 seconds after the start stores a duration of -7. *)
Lemma duration_is_not_taken_at_commit_time :
  let started := Sample.session "s1" "b1" 0 active in
  let stored end_now :=
    option_map Session.duration_minutes
      (find_session "s1"
         (Result.db (Part000.endBookingSession Sample.operator "s1"
                       (Sample.quiet_end end_now)
                       Sample.db_one_active_session))) in
  find_session "s1" Sample.db_one_active_session = Some started
  /\ 119000 <= 121000
  /\ stored 119000 = Some (Some 2)
  /\ duration_to_commit started 121000 = 3
  /\ stored 119000 <> Some (Some (duration_to_commit started 121000))
  /\ stored 5000 = Some (Some 1)
  /\ duration_to_commit started 125000 = 3
  /\ stored (125000 - 600000) = Some (Some (-7))
  /\ succeeded (Part000.endBookingSession Sample.operator "s1"
                  (Sample.quiet_end 119000) Sample.db_one_active_session)
     = true.
Proof.
  cbv zeta. repeat split; try reflexivity; try discriminate.
Qed.

(* ------------------------------------------------------------------------- *)
(** ** Dashboard statistics *)

Lemma or_zero_id (x : Z) : or_zero x = x.
Proof. unfold or_zero. destruct (Z.eqb_spec x 0); congruence. Qed.

Lemma fold_left_sum_from (f : Booking.t -> Z) (l : list Booking.t) (a : Z) :
  fold_left (fun sum b => sum + f b) l a
  = a + fold_left (fun sum b => sum + f b) l 0.
Proof.
  revert a. induction l as [|b l IH]; intros a; simpl; [lia|].
  rewrite (IH (a + f b)), (IH (f b)). lia.
Qed.

(** The pages version sums the confirmed bookings only. *)
Lemma Pages_totalRevenue_confirmed_only (user : User.t)
  (data : list Booking.t) (count : option Z) :
  totalRevenue (Pages.fetchDashboardData_stats user (Some data) count)
  = revenue_of_confirmed data.
Proof.
  unfold Pages.fetchDashboardData_stats; simpl.
  induction data as [|b l IH]; simpl; [reflexivity|].
  destruct (BookingStatus_eqb (Booking.status b) confirmed); simpl.
  - rewrite fold_left_sum_from, IH. reflexivity.
  - rewrite IH. reflexivity.
Qed.

(** The other version sums every booking, whatever its status. *)
Lemma Part000_totalRevenue_all (data : list Booking.t)
  (users : option (list string)) :
  totalRevenue (Part000.fetchDashboardData_stats (Some data) users)
  = revenue_of_all data.
Proof.
  unfold Part000.fetchDashboardData_stats; simpl. rewrite or_zero_id.
  induction data as [|b l IH]; simpl; [reflexivity|].
  rewrite fold_left_sum_from, IH, or_zero_id. reflexivity.
Qed.

(** C8.  Over [confirmed:100, confirmed:200, confirmed:300, pending:50] the
    statistics of part_000 count 3 confirmed and 1 pending booking but a
    total revenue of 650: the pending booking's 50 is included, where the
    sum over the confirmed bookings (which the pages version computes) is
    600. *)
Theorem Part000_totalRevenue_includes_pending :
  let stats := Part000.fetchDashboardData_stats (Some Sample.four_bookings) None in
  totalRevenue stats = 650
  /\ confirmedBookings stats = 3
  /\ pendingBookings stats = 1
  /\ revenue_of_confirmed Sample.four_bookings = 600
  /\ totalRevenue
       (Pages.fetchDashboardData_stats Sample.operator
          (Some Sample.four_bookings) None) = 600.
Proof. repeat split. Qed.

(* ------------------------------------------------------------------------- *)
(** ** Starting a session *)

Lemma Part000_start_no_session (user : User.t) (bookings : list Booking.t)
  (bookingId : string) (booking : Booking.t) (env : StartEnv) (d : Db.t) :
  find_booking bookingId bookings = Some booking ->
  sessions_of_booking bookingId (Db.user_sessions d) = [] ->
  st_check_error env = None ->
  Part000.startBookingSession_check user bookings bookingId env d
  = inr (mkInsert (or_else (Booking.user_id booking) (User.id user))
           bookingId "booking" (User.id user) active).
Proof.
  intros Hb Hs He. unfold Part000.startBookingSession_check.
  rewrite Hb, Hs, He. reflexivity.
Qed.





(* ------------------------------------------------------------------------- *)
(** ** Changing the status of a booking *)

Section UpdateFacts.

Variable user : User.t.
Variable bookings : list Booking.t.
Variables action_of success_text : BookingStatus -> string.

Lemma find_booking_updated (u : UpdateData) (key : string)
  (l : list Booking.t) :
  find_booking key (update_eq_id Booking.id (apply_updateData u) key l)
  = option_map (apply_updateData u) (find_booking key l).
Proof.
  unfold find_booking.
  rewrite find_update_eq_id by apply apply_updateData_id.
  destruct (find _ l) as [b|] eqn:Hb; simpl; [|reflexivity].
  apply find_eq_id_some in Hb. rewrite Hb, String.eqb_refl. reflexivity.
Qed.

Lemma updateBookingStatus_accepted (bookingId : string)
  (newStatus : BookingStatus) (code : option string) (env : UpdateEnv)
  (d : Db.t) :
  upd_error env = None ->
  succeeded (updateBookingStatus user bookings action_of success_text
     bookingId newStatus code env d) = true
  /\ Result.db (updateBookingStatus user bookings action_of success_text
     bookingId newStatus code env d)
     = Db.mk (update_eq_id Booking.id
                (apply_updateData
                   (mkUpdateData newStatus (upd_now env)
                      (if truthy code then code else None)))
                bookingId (Db.bookings d))
         (Db.user_sessions d).
Proof.
  intros He. unfold updateBookingStatus. rewrite He.
  destruct (find_booking bookingId bookings); split; reflexivity.
Qed.

Lemma updateBookingStatus_store_error (bookingId : string)
  (newStatus : BookingStatus) (code : option string) (env : UpdateEnv)
  (d : Db.t) :
  upd_error env <> None ->
  failed (updateBookingStatus user bookings action_of success_text
     bookingId newStatus code env d) = true
  /\ Result.db (updateBookingStatus user bookings action_of success_text
     bookingId newStatus code env d) = d.
Proof.
  intros He. unfold updateBookingStatus.
  destruct (upd_error env); [split; reflexivity|congruence].
Qed.

Lemma updateBookingStatus_status (bookingId : string)
  (newStatus : BookingStatus) (code : option string) (env : UpdateEnv)
  (d : Db.t) (s : BookingStatus) :
  upd_error env = None ->
  storedStatus d bookingId = Some s ->
  storedStatus (Result.db (updateBookingStatus user bookings action_of success_text
     bookingId newStatus code env d)) bookingId
  = Some newStatus.
Proof.
  intros He Hs.
  destruct (updateBookingStatus_accepted bookingId newStatus code env d He)
    as [_ Hd].
  rewrite Hd. unfold storedStatus in *. simpl.
  rewrite find_booking_updated.
  destruct (find_booking bookingId (Db.bookings d)); [reflexivity|discriminate].
Qed.

Lemma updateBookingStatus_code (bookingId : string)
  (newStatus : BookingStatus) (code : option string) (env : UpdateEnv)
  (d : Db.t) (b : Booking.t) :
  upd_error env = None ->
  find_booking bookingId (Db.bookings d) = Some b ->
  storedCode (Result.db (updateBookingStatus user bookings action_of success_text
     bookingId newStatus code env d)) bookingId
  = if truthy code then code else Booking.confirmation_code b.
Proof.
  intros He Hb.
  destruct (updateBookingStatus_accepted bookingId newStatus code env d He)
    as [_ Hd].
  rewrite Hd. unfold storedCode. simpl.
  rewrite find_booking_updated, Hb. simpl.
  destruct (truthy code) eqn:Ht; [|reflexivity].
  destruct code; [reflexivity|discriminate].
Qed.

End UpdateFacts.

Lemma onClick_inv (booking : Booking.t) (button : PendingButton)
  (key : string) (target : BookingStatus) (code : option string) :
  onClick booking button = Some (key, target, code) ->
  key = Booking.id booking
  /\ Booking.status booking = pending
  /\ (button = Confirm /\ target = confirmed /\ code = None
      \/ button = Reject /\ target = rejected /\ code = None
      \/ exists c, button = SendCode c /\ target = code_sent /\ code = Some c).
Proof.
  unfold onClick. destruct (Booking.status booking); try discriminate.
  destruct button as [c| |]; intros H; inversion H; subst;
    repeat split; eauto 6.
Qed.

(** C1 (as amended).  [updateBookingStatus] takes no expected status and
    does not look at the stored one: whenever the store accepts the update,
    the call succeeds and the stored status becomes the requested one,
    whatever it was; the call fails, leaving the store as it was, only when
    the store reports an error.  Of two calls on the same booking that the
    store accepts, both succeed and the later write stands. *)
Theorem updateBookingStatus_last_write_wins (user : User.t)
  (bookings : list Booking.t) (action_of success_text : BookingStatus -> string)
  (bookingId : string) (s target1 target2 : BookingStatus)
  (code1 code2 : option string) (env1 env2 : UpdateEnv) (d : Db.t) :
  storedStatus d bookingId = Some s ->
  let update := updateBookingStatus user bookings action_of success_text in
  let r1 := update bookingId target1 code1 env1 d in
  let r2 := update bookingId target2 code2 env2 (Result.db r1) in
  (upd_error env1 = None ->
   succeeded r1 = true
   /\ storedStatus (Result.db r1) bookingId = Some target1)
  /\ (upd_error env1 <> None -> failed r1 = true /\ Result.db r1 = d)
  /\ (upd_error env1 = None -> upd_error env2 = None ->
      succeeded r1 = true /\ succeeded r2 = true
      /\ storedStatus (Result.db r2) bookingId = Some target2).
Proof.
  intros Hs update r1 r2.
  assert (H1 : upd_error env1 = None ->
               succeeded r1 = true
               /\ storedStatus (Result.db r1) bookingId = Some target1).
  { intros He. split.
    - apply updateBookingStatus_accepted, He.
    - eapply updateBookingStatus_status; eassumption. }
  split; [exact H1|]. split.
  - apply updateBookingStatus_store_error.
  - intros He1 He2. destruct (H1 He1) as [Hok1 Hst1].
    split; [exact Hok1|]. split.
    + apply updateBookingStatus_accepted, He2.
    + eapply updateBookingStatus_status; eassumption.
Qed.

(** On the sample data: Send Code by one operator, then Confirm by another
    whose dashboard still shows the booking as pending. *)
Lemma updateBookingStatus_last_write_wins_witness :
  let update := Part000.updateBookingStatus Sample.other_operator
                  Sample.shown_pending in
  let r1 := update "b1" code_sent (Some "AB12CD") (Sample.quiet_update 1000)
              Sample.db_pending in
  let r2 := update "b1" confirmed None (Sample.quiet_update 2000)
              (Result.db r1) in
  succeeded r1 = true /\ succeeded r2 = true
  /\ storedStatus (Result.db r2) "b1" = Some confirmed.
Proof.
  intros update r1 r2.
  apply (updateBookingStatus_last_write_wins Sample.other_operator
           Sample.shown_pending Part000.action_of Part000.success_text
           "b1" pending code_sent confirmed (Some "AB12CD") None
           (Sample.quiet_update 1000) (Sample.quiet_update 2000)
           Sample.db_pending eq_refl); reflexivity.
Defined.

(** C1, counterexample.  The store holds the booking as [code_sent]; an
    operator whose dashboard still shows it as [pending] confirms it.  The
    call is not refused: it succeeds and rewrites the stored booking.  And of
    two calls made from dashboards that both show [pending], both succeed. *)
Lemma stale_transition_is_not_refused :
  let r := Part000.updateBookingStatus Sample.operator Sample.shown_pending
             "b1" confirmed None (Sample.quiet_update 2000)
             Sample.db_code_sent in
  let r1 := Part000.updateBookingStatus Sample.other_operator
              Sample.shown_pending "b1" code_sent (Some "AB12CD")
              (Sample.quiet_update 1000) Sample.db_pending in
  let r2 := Part000.updateBookingStatus Sample.operator Sample.shown_pending
              "b1" confirmed None (Sample.quiet_update 2000) (Result.db r1) in
  storedStatus Sample.db_code_sent "b1" = Some code_sent
  /\ expectedCurrentStatus Sample.shown_pending "b1" = Some pending
  /\ ~ (failed r = true /\ Result.db r = Sample.db_code_sent)
  /\ succeeded r = true
  /\ storedStatus (Result.db r) "b1" = Some confirmed
  /\ succeeded r1 = true /\ succeeded r2 = true
  /\ (let r' := Pages.updateBookingStatus Sample.operator Sample.shown_pending
                  "b1" confirmed None (Sample.quiet_update 2000)
                  Sample.db_code_sent in
      succeeded r' = true /\ Result.db r' = Result.db r).
Proof.
  cbv zeta. repeat split; try reflexivity.
  intros [H _]. discriminate H.
Qed.

(** C2 (as amended).  [updateBookingStatus] checks no transition: for every
    stored status and every requested status, allowed pair or not, an update
    that the store accepts succeeds and sets the requested status.  What
    restricts the transitions is the dashboard: it offers the three buttons
    Send Code, Confirm and Reject, and only on a row it shows as [pending],
    so every call it makes is an allowed transition out of the status
    shown. *)
Theorem updateBookingStatus_checks_no_transition (user : User.t)
  (bookings : list Booking.t) (action_of success_text : BookingStatus -> string)
  (bookingId : string) (s target : BookingStatus) (code : option string)
  (env : UpdateEnv) (d : Db.t) :
  storedStatus d bookingId = Some s ->
  upd_error env = None ->
  let r := updateBookingStatus user bookings action_of success_text
             bookingId target code env d in
  (succeeded r = true /\ storedStatus (Result.db r) bookingId = Some target)
  /\ (forall booking button key t c,
        onClick booking button = Some (key, t, c) ->
        key = Booking.id booking
        /\ Booking.status booking = pending
        /\ allowed (Booking.status booking) t = true).
Proof.
  intros Hs He r. split.
  - split.
    + apply updateBookingStatus_accepted, He.
    + eapply updateBookingStatus_status; eassumption.
  - intros booking button key t c H.
    destruct (onClick_inv _ _ _ _ _ H) as (Hk & Hp & Hcases).
    rewrite Hp. repeat split; try assumption.
    destruct Hcases as [(_ & -> & _)|[(_ & -> & _)|(c' & _ & -> & _)]];
      reflexivity.
Qed.

(** On the sample data: a rejected booking put back to pending. *)
Lemma updateBookingStatus_checks_no_transition_witness :
  let r := Part000.updateBookingStatus Sample.operator Sample.shown_pending
             "b1" pending None (Sample.quiet_update 2000)
             Sample.db_rejected in
  allowed rejected pending = false
  /\ succeeded r = true
  /\ storedStatus (Result.db r) "b1" = Some pending.
Proof.
  intros r. split; [reflexivity|].
  apply (updateBookingStatus_checks_no_transition Sample.operator
           Sample.shown_pending Part000.action_of Part000.success_text
           "b1" rejected pending None (Sample.quiet_update 2000)
           Sample.db_rejected eq_refl eq_refl).
Defined.

(** C2, counterexample.  The booking is stored as [rejected]; an operator
    whose dashboard still shows it as [pending] presses Confirm.  The pair
    rejected -> confirmed is not an allowed transition, yet the call succeeds
    and the booking becomes [confirmed]. *)
Lemma rejected_booking_gets_confirmed :
  let shown := Sample.booking "b1" 100 pending None (Some "cust-1") in
  let r := Part000.updateBookingStatus Sample.operator [shown]
             "b1" confirmed None (Sample.quiet_update 2000)
             Sample.db_rejected in
  onClick shown Confirm = Some ("b1", confirmed, None)
  /\ storedStatus Sample.db_rejected "b1" = Some rejected
  /\ allowed rejected confirmed = false
  /\ succeeded r = true
  /\ failed r = false
  /\ storedStatus (Result.db r) "b1" = Some confirmed
  /\ Result.db r <> Sample.db_rejected
  /\ Result.db (Pages.updateBookingStatus Sample.operator [shown]
                  "b1" confirmed None (Sample.quiet_update 2000)
                  Sample.db_rejected) = Result.db r.
Proof.
  cbv zeta. repeat split; try reflexivity. discriminate.
Qed.

(** C4 (as amended).  [updateBookingStatus] writes [confirmation_code]
    exactly when it is given a non-empty code, whatever the stored status and
    whether or not a code is stored already; given no code it leaves the
    stored code as it is.  The dashboard passes a code with Send Code (target
    [code_sent]) only; Confirm and Reject pass none and so keep the stored
    code. *)
Theorem updateBookingStatus_writes_code_iff_given (user : User.t)
  (bookings : list Booking.t) (action_of success_text : BookingStatus -> string)
  (bookingId : string) (target : BookingStatus) (code : option string)
  (env : UpdateEnv) (d : Db.t) (b : Booking.t) :
  find_booking bookingId (Db.bookings d) = Some b ->
  upd_error env = None ->
  let r := updateBookingStatus user bookings action_of success_text
             bookingId target code env d in
  storedCode (Result.db r) bookingId
  = (if truthy code then code else Booking.confirmation_code b)
  /\ (forall booking button key t c,
        onClick booking button = Some (key, t, c) ->
        (t <> code_sent -> c = None)
        /\ (c <> None -> t = code_sent /\ Booking.status booking = pending)).
Proof.
  intros Hb He r. split.
  - apply updateBookingStatus_code; assumption.
  - intros booking button key t c H.
    destruct (onClick_inv _ _ _ _ _ H) as (_ & Hp & Hcases).
    destruct Hcases as [(_ & -> & ->)|[(_ & -> & ->)|(c' & _ & -> & ->)]];
      split; intros; try congruence; split; congruence.
Qed.

(** On the sample data: Confirm keeps the code that was sent. *)
Lemma updateBookingStatus_writes_code_iff_given_witness :
  let r := Part000.updateBookingStatus Sample.operator Sample.shown_pending
             "b1" confirmed None (Sample.quiet_update 2000)
             Sample.db_code_sent in
  storedCode (Result.db r) "b1" = Some "AB12CD".
Proof.
  intros r.
  apply (updateBookingStatus_writes_code_iff_given Sample.operator
           Sample.shown_pending Part000.action_of Part000.success_text
           "b1" confirmed None (Sample.quiet_update 2000)
           Sample.db_code_sent
           (Sample.booking "b1" 100 code_sent (Some "AB12CD") (Some "cust-1"))
           eq_refl eq_refl).
Defined.

(** C4, counterexample.  The booking is stored as [code_sent] with code
    AB12CD; an operator whose dashboard still shows it as [pending] presses
    Send Code, which draws the code ZZ99ZZ.  The stored code, already set, is
    replaced. *)
Lemma second_send_code_replaces_the_code :
  let shown := Sample.booking "b1" 100 pending None (Some "cust-1") in
  let r := Part000.updateBookingStatus Sample.operator [shown]
             "b1" code_sent (Some "ZZ99ZZ") (Sample.quiet_update 2000)
             Sample.db_code_sent in
  onClick shown (SendCode "ZZ99ZZ") = Some ("b1", code_sent, Some "ZZ99ZZ")
  /\ storedCode Sample.db_code_sent "b1" = Some "AB12CD"
  /\ succeeded r = true
  /\ storedCode (Result.db r) "b1" = Some "ZZ99ZZ"
  /\ storedCode (Result.db r) "b1" <> storedCode Sample.db_code_sent "b1"
  /\ Result.db (Pages.updateBookingStatus Sample.operator [shown]
                  "b1" code_sent (Some "ZZ99ZZ") (Sample.quiet_update 2000)
                  Sample.db_code_sent) = Result.db r.
Proof.
  cbv zeta. repeat split; try reflexivity. discriminate.
Qed.

(* ------------------------------------------------------------------------- *)
(** ** Ending a session *)

Lemma endBookingSession_not_found (user : User.t) (sessionId : string)
  (env : EndEnv) (d : Db.t) :
  filter (fun s => (Session.id s =? sessionId)%string) (Db.user_sessions d)
  = [] ->
  let r := Part000.endBookingSession user sessionId env d in
  failed r = true /\ Result.db r = d.
Proof.
  intros Hs. unfold Part000.endBookingSession, select_single.
  rewrite Hs. destruct (end_select_error env); split; reflexivity.
Qed.

(** C5 (as amended).  [endBookingSession] does not look at the status of the
    session: whenever the row exists and the store answers, the call succeeds
    and writes [completed] together with the end time and duration of this
    call, whether the session was active or already completed.  So a second
    call on the same session succeeds again and replaces the end time and the
    duration written by the first.  The call fails, and changes nothing, when
    no row has the given id. *)
Theorem endBookingSession_ends_whatever_the_status (user1 user2 : User.t)
  (sessionId : string) (env1 env2 : EndEnv) (d : Db.t) :
  end_select_error env1 = None -> end_update_error env1 = None ->
  end_select_error env2 = None -> end_update_error env2 = None ->
  let r1 := Part000.endBookingSession user1 sessionId env1 d in
  let r2 := Part000.endBookingSession user2 sessionId env2 (Result.db r1) in
  (forall s,
     filter (fun s => (Session.id s =? sessionId)%string) (Db.user_sessions d)
     = [s] ->
     succeeded r1 = true
     /\ find_session sessionId (Result.db r1)
        = Some (Part000.end_patch user1 (end_now env1)
                  (Math_ceil_div (end_now env1 - Session.start_time s)
                     (1000 * 60)) s)
     /\ succeeded r2 = true
     /\ find_session sessionId (Result.db r2)
        = Some (Part000.end_patch user2 (end_now env2)
                  (Math_ceil_div (end_now env2 - Session.start_time s)
                     (1000 * 60)) s))
  /\ (filter (fun s => (Session.id s =? sessionId)%string) (Db.user_sessions d)
      = [] ->
      failed r1 = true /\ Result.db r1 = d).
Proof.
  intros Hs1 Hu1 Hs2 Hu2 r1 r2. split.
  - intros s Hs.
    destruct (endBookingSession_db user1 sessionId env1 d s Hs Hs1 Hu1)
      as (Hok1 & _ & Hf1).
    fold r1 in Hok1, Hf1.
    destruct (endBookingSession_db user2 sessionId env2 (Result.db r1) _
                Hf1 Hs2 Hu2) as (Hok2 & _ & Hf2).
    fold r2 in Hok2, Hf2.
    split; [exact Hok1|].
    split; [now apply filter_eq_id_singleton_find|].
    split; [exact Hok2|].
    apply filter_eq_id_singleton_find. exact Hf2.
  - apply endBookingSession_not_found.
Qed.

(** On the sample data: the same session ended twice. *)
Lemma endBookingSession_ends_whatever_the_status_witness :
  let r1 := Part000.endBookingSession Sample.operator "s1"
              (Sample.quiet_end 125000) Sample.db_one_active_session in
  let r2 := Part000.endBookingSession Sample.other_operator "s1"
              (Sample.quiet_end 600000) (Result.db r1) in
  succeeded r2 = true
  /\ option_map Session.duration_minutes (find_session "s1" (Result.db r2))
     = Some (Some 10).
Proof.
  intros r1 r2.
  destruct (endBookingSession_ends_whatever_the_status Sample.operator
              Sample.other_operator "s1" (Sample.quiet_end 125000)
              (Sample.quiet_end 600000) Sample.db_one_active_session
              eq_refl eq_refl eq_refl eq_refl) as [H _].
  destruct (H (Sample.session "s1" "b1" 0 active) eq_refl)
    as (_ & _ & Hok & Hrow).
  split; [exact Hok|].
  unfold r2, r1. rewrite Hrow. reflexivity.
Defined.

(** C5, counterexample.  A session started at time 0 is ended after 125
    seconds and then ended a second time after 600 seconds.  The second call
    does not fail: it succeeds and rewrites the completed session, moving its
    end time from 125000 to 600000 and its duration from 3 to 10 minutes. *)
Lemma second_end_rewrites_the_session :
  let r1 := Part000.endBookingSession Sample.operator "s1"
              (Sample.quiet_end 125000) Sample.db_one_active_session in
  let r2 := Part000.endBookingSession Sample.operator "s1"
              (Sample.quiet_end 600000) (Result.db r1) in
  succeeded r1 = true
  /\ option_map Session.status (find_session "s1" (Result.db r1))
     = Some completed
  /\ option_map Session.duration_minutes (find_session "s1" (Result.db r1))
     = Some (Some 3)
  /\ succeeded r2 = true
  /\ failed r2 = false
  /\ option_map Session.end_time (find_session "s1" (Result.db r2))
     = Some (Some 600000)
  /\ option_map Session.duration_minutes (find_session "s1" (Result.db r2))
     = Some (Some 10)
  /\ Result.db r2 <> Result.db r1.
Proof.
  cbv zeta. repeat split; try reflexivity. discriminate.
Qed.

(* ------------------------------------------------------------------------- *)
(** ** The webhook *)

(** C9 (as amended).  What the webhook call does has no effect on the
    handler that makes it: for [updateBookingStatus] and for
    [endBookingSession], the store afterwards, the toast, the refetch and the
    request sent are the same for any two outcomes of [fetch].  A rejected
    [fetch] (network failure, timed out request) is caught and logged as
    "Webhook failed:"; a [fetch] that resolves, with whatever HTTP status, is
    not seen as a failure and logs nothing. *)
Theorem webhook_outcome_changes_nothing (user : User.t)
  (bookings : list Booking.t) (action_of success_text : BookingStatus -> string)
  (bookingId : string) (target : BookingStatus) (code : option string)
  (now ts : Z) (err : option PostgrestError)
  (sessionId : string) (serr uerr : option PostgrestError) (enow ets : Z)
  (d : Db.t) :
  let upd f := updateBookingStatus user bookings action_of success_text
                 bookingId target code (mkUpdateEnv now err f ts) d in
  let fin f := Part000.endBookingSession user sessionId
                 (mkEndEnv serr enow uerr f ets) d in
  (forall f1 f2,
     Result.db (upd f1) = Result.db (upd f2)
     /\ Result.toast (upd f1) = Result.toast (upd f2)
     /\ Result.refetch (upd f1) = Result.refetch (upd f2)
     /\ Result.posted (upd f1) = Result.posted (upd f2))
  /\ (forall f1 f2,
        Result.db (fin f1) = Result.db (fin f2)
        /\ Result.toast (fin f1) = Result.toast (fin f2)
        /\ Result.refetch (fin f1) = Result.refetch (fin f2)
        /\ Result.posted (fin f1) = Result.posted (fin f2))
  /\ (forall f,
        Result.posted (upd f) <> None ->
        Result.console (upd f)
        = match f with Rejected _ => ["Webhook failed:"] | Response _ => [] end)
  /\ (forall f,
        Result.posted (fin f) <> None ->
        Result.console (fin f)
        = match f with Rejected _ => ["Webhook failed:"] | Response _ => [] end).
Proof.
  intros upd fin. split; [|split; [|split]].
  - intros f1 f2. unfold upd, updateBookingStatus; simpl.
    destruct err; [repeat split|].
    destruct (find_booking bookingId bookings); repeat split.
  - intros f1 f2. unfold fin, Part000.endBookingSession; simpl.
    destruct (select_single serr _) as [s|e]; [|repeat split].
    destruct uerr; [repeat split|].
    destruct (Part000.joined_booking s d); repeat split.
  - intros f. unfold upd, updateBookingStatus; simpl.
    destruct err; simpl; [congruence|].
    destruct (find_booking bookingId bookings); simpl; [|congruence].
    intros _. destruct f; reflexivity.
  - intros f. unfold fin, Part000.endBookingSession; simpl.
    destruct (select_single serr _) as [s|e]; simpl; [|congruence].
    destruct uerr; simpl; [congruence|].
    destruct (Part000.joined_booking s d); simpl; [|congruence].
    intros _. destruct f; reflexivity.
Qed.

(** C9, counterexample.  The webhook answers HTTP 500 to the request that
    follows a status change, and HTTP 503 to the one that follows the end of
    a session.  Both handlers succeed, the requests were sent, and nothing is
    caught or logged: the console stays empty. *)
Lemma http_error_reply_is_not_logged :
  let r := Part000.updateBookingStatus Sample.operator Sample.shown_pending
             "b1" confirmed None
             (mkUpdateEnv 2000 None (Response 500) 2000) Sample.db_pending in
  let r' := Part000.endBookingSession Sample.operator "s1"
              (mkEndEnv None 125000 None (Response 503) 125000)
              Sample.db_one_active_session in
  succeeded r = true
  /\ Result.posted r <> None
  /\ Result.console r = []
  /\ ~ In "Webhook failed:" (Result.console r)
  /\ succeeded r' = true
  /\ Result.posted r' <> None
  /\ Result.console r' = []
  /\ Result.console
       (Pages.updateBookingStatus Sample.operator Sample.shown_pending
          "b1" confirmed None
          (mkUpdateEnv 2000 None (Response 500) 2000) Sample.db_pending) = [].
Proof.
  cbv zeta. repeat split; try reflexivity; try discriminate.
  intros H; exact H.
Qed.

(* ------------------------------------------------------------------------- *)
(** ** Starting a session: check, then insert *)

Lemma sessions_of_booking_inserted (bookingId : string) (l : list Session.t)
  (i : SessionInsert) (env : StartEnv) :
  ins_booking_id i = bookingId ->
  sessions_of_booking bookingId (l ++ [inserted_row i env])
  = (sessions_of_booking bookingId l ++ [inserted_row i env])%list.
Proof.
  intros Hi. unfold sessions_of_booking. rewrite filter_app. simpl.
  rewrite Hi, String.eqb_refl. reflexivity.
Qed.

Lemma active_sessions_of_user_inserted (userId : string) (l : list Session.t)
  (i : SessionInsert) (env : StartEnv) :
  ins_user_id i = userId -> ins_status i = active ->
  active_sessions_of_user userId (l ++ [inserted_row i env])
  = (active_sessions_of_user userId l ++ [inserted_row i env])%list.
Proof.
  intros Hu Ha. unfold active_sessions_of_user. rewrite filter_app. simpl.
  rewrite Hu, Ha, String.eqb_refl. reflexivity.
Qed.

Lemma Part000_start_fresh (user : User.t) (bookings : list Booking.t)
  (bookingId : string) (booking : Booking.t) (env : StartEnv) (d : Db.t) :
  find_booking bookingId bookings = Some booking ->
  sessions_of_booking bookingId (Db.user_sessions d) = [] ->
  st_check_error env = None -> st_insert_error env = None ->
  Part000.startBookingSession user bookings bookingId env d
  = Result.mk
      (Db.mk (Db.bookings d)
         (Db.user_sessions d
          ++ [inserted_row
                (mkInsert (or_else (Booking.user_id booking) (User.id user))
                   bookingId "booking" (User.id user) active) env]))
      (Some (toast_success "Booking session started successfully"))
      [] None true.
Proof.
  intros Hb Hs Hc Hi. unfold Part000.startBookingSession.
  rewrite (Part000_start_no_session _ _ _ _ _ _ Hb Hs Hc).
  unfold Part000.startBookingSession_insert, start_insert, insert.
  rewrite Hi. reflexivity.
Qed.

Lemma Part000_start_already_active (user : User.t)
  (bookings : list Booking.t) (bookingId : string) (booking : Booking.t)
  (env : StartEnv) (d : Db.t) (s : Session.t) :
  find_booking bookingId bookings = Some booking ->
  sessions_of_booking bookingId (Db.user_sessions d) = [s] ->
  Session.status s = active ->
  st_check_error env = None ->
  Part000.startBookingSession user bookings bookingId env d
  = Result.mk d
      (Some (toast_error "Session is already active for this booking"))
      [] None false.
Proof.
  intros Hb Hs Ha Hc.
  unfold Part000.startBookingSession, Part000.startBookingSession_check.
  rewrite Hb, Hs, Hc. simpl. rewrite Ha. reflexivity.
Qed.


Lemma truthy_or_else (userId : option string) :
  truthy userId = true -> userId = Some (or_else userId "").
Proof.
  destruct userId as [u|]; simpl; [|discriminate].
  destruct (u =? "")%string; [discriminate|reflexivity].
Qed.

Lemma Pages_start_fresh (user : User.t) (bookingId : string)
  (userId : option string) (env : StartEnv) (d : Db.t) :
  truthy userId = true ->
  active_sessions_of_user (or_else userId "") (Db.user_sessions d) = [] ->
  st_check_error env = None -> st_insert_error env = None ->
  Pages.startBookingSession user bookingId userId env d
  = Result.mk
      (Db.mk (Db.bookings d)
         (Db.user_sessions d
          ++ [inserted_row
                (mkInsert (or_else userId "") bookingId "booking"
                   (User.id user) active) env]))
      (Some (toast_success "Booking session started successfully"))
      [] None true.
Proof.
  intros Ht Hs Hc Hi.
  unfold Pages.startBookingSession, Pages.startBookingSession_check.
  rewrite Ht, Hs, Hc. simpl.
  unfold Pages.startBookingSession_insert, start_insert, insert.
  rewrite Hi. reflexivity.
Qed.

Lemma Pages_start_already_active (user : User.t) (bookingId : string)
  (userId : option string) (env : StartEnv) (d : Db.t) (s : Session.t) :
  truthy userId = true ->
  active_sessions_of_user (or_else userId "") (Db.user_sessions d) = [s] ->
  st_check_error env = None ->
  Pages.startBookingSession user bookingId userId env d
  = Result.mk d (Some (toast_error "User already has an active session"))
      [] None false.
Proof.
  intros Ht Hs Hc.
  unfold Pages.startBookingSession, Pages.startBookingSession_check.
  rewrite Ht, Hs, Hc. reflexivity.
Qed.


(** C3 (as amended).  [startBookingSession] is two store calls: a check for
    an existing session, then an insert that the store does not condition on
    anything.  When two calls for the same booking run one after the other
    (the second check sees the first insert), on a store that holds no
    session for the booking (part_000) or no active session of the user
    (pages version), the first succeeds and the second is refused with the
    "already active" toast and inserts nothing, so one active session
    exists.  When both checks reach the store before either insert and the
    store accepts both inserts, both calls succeed and two active sessions
    exist. *)
Theorem startBookingSession_check_then_insert (user1 user2 : User.t)
  (bookingId : string) (env1 env2 : StartEnv) (d : Db.t) :
  st_check_error env1 = None -> st_insert_error env1 = None ->
  st_check_error env2 = None ->
  (forall bookings1 bookings2 b1 b2,
     find_booking bookingId bookings1 = Some b1 ->
     find_booking bookingId bookings2 = Some b2 ->
     sessions_of_booking bookingId (Db.user_sessions d) = [] ->
     let r1 := Part000.startBookingSession user1 bookings1 bookingId env1 d in
     let r2 := Part000.startBookingSession user2 bookings2 bookingId env2
                 (Result.db r1) in
     succeeded r1 = true
     /\ Result.toast r2
        = Some (toast_error "Session is already active for this booking")
     /\ Result.db r2 = Result.db r1
     /\ List.length (active_sessions_of_booking bookingId (Result.db r2))
        = 1%nat)
  /\ (forall userId,
        truthy userId = true ->
        active_sessions_of_user (or_else userId "") (Db.user_sessions d) = [] ->
        let r1 := Pages.startBookingSession user1 bookingId userId env1 d in
        let r2 := Pages.startBookingSession user2 bookingId userId env2
                    (Result.db r1) in
        succeeded r1 = true
        /\ Result.toast r2
           = Some (toast_error "User already has an active session")
        /\ Result.db r2 = Result.db r1
        /\ List.length
             (active_sessions_of_user (or_else userId "")
                (Db.user_sessions (Result.db r2))) = 1%nat)
  /\ (forall bookings1 bookings2 b1 b2,
        find_booking bookingId bookings1 = Some b1 ->
        find_booking bookingId bookings2 = Some b2 ->
        sessions_of_booking bookingId (Db.user_sessions d) = [] ->
        st_insert_error env2 = None ->
        let race :=
          both_check_then_both_insert
            (Part000.startBookingSession_check user1 bookings1 bookingId env1)
            (Part000.startBookingSession_check user2 bookings2 bookingId env2)
            (fun i => Part000.startBookingSession_insert i env1)
            (fun i => Part000.startBookingSession_insert i env2) d in
        succeeded (fst (fst race)) = true
        /\ succeeded (snd (fst race)) = true
        /\ List.length (active_sessions_of_booking bookingId (snd race))
           = 2%nat)
  /\ (forall userId,
        truthy userId = true ->
        active_sessions_of_user (or_else userId "") (Db.user_sessions d) = [] ->
        st_insert_error env2 = None ->
        let race :=
          both_check_then_both_insert
            (Pages.startBookingSession_check user1 bookingId userId env1)
            (Pages.startBookingSession_check user2 bookingId userId env2)
            (fun i => Pages.startBookingSession_insert i env1)
            (fun i => Pages.startBookingSession_insert i env2) d in
        succeeded (fst (fst race)) = true
        /\ succeeded (snd (fst race)) = true
        /\ List.length
             (active_sessions_of_user (or_else userId "")
                (Db.user_sessions (snd race))) = 2%nat
        /\ List.length (active_sessions_of_booking bookingId (snd race))
           = S (S (List.length (active_sessions_of_booking bookingId d)))).
Proof.
  intros Hc1 Hi1 Hc2. split; [|split; [|split]].
  - intros bookings1 bookings2 b1 b2 Hb1 Hb2 Hs r1 r2. subst r2 r1.
    rewrite (Part000_start_fresh _ _ _ _ _ _ Hb1 Hs Hc1 Hi1). simpl.
    erewrite Part000_start_already_active; try eassumption.
    + simpl. repeat split.
      unfold active_sessions_of_booking. simpl.
      rewrite sessions_of_booking_inserted by reflexivity.
      rewrite Hs. reflexivity.
    + simpl. rewrite sessions_of_booking_inserted by reflexivity.
      rewrite Hs. reflexivity.
    + reflexivity.
  - intros userId Ht Hs r1 r2. subst r2 r1.
    rewrite (Pages_start_fresh _ _ _ _ _ Ht Hs Hc1 Hi1). simpl.
    erewrite Pages_start_already_active; try eassumption.
    + simpl. repeat split.
      rewrite active_sessions_of_user_inserted by reflexivity.
      rewrite Hs. reflexivity.
    + simpl. rewrite active_sessions_of_user_inserted by reflexivity.
      rewrite Hs. reflexivity.
  - intros bookings1 bookings2 b1 b2 Hb1 Hb2 Hs Hi2 race. subst race.
    unfold both_check_then_both_insert.
    rewrite (Part000_start_no_session _ _ _ _ _ _ Hb1 Hs Hc1),
      (Part000_start_no_session _ _ _ _ _ _ Hb2 Hs Hc2).
    unfold Part000.startBookingSession_insert, start_insert, insert.
    rewrite Hi1. cbn [Result.db]. rewrite Hi2.
    cbn [fst snd succeeded Result.toast Result.db].
    split; [reflexivity|]. split; [reflexivity|].
    unfold active_sessions_of_booking. cbn [Db.user_sessions].
    rewrite !sessions_of_booking_inserted by reflexivity.
    rewrite Hs. reflexivity.
  - intros userId Ht Hs Hi2 race. subst race.
    unfold both_check_then_both_insert, Pages.startBookingSession_check.
    rewrite Ht, Hc1, Hc2. cbn [negb]. unfold select_maybeSingle. rewrite Hs.
    cbn [maybeSingle fatal_check_error].
    unfold Pages.startBookingSession_insert, start_insert, insert.
    rewrite Hi1. cbn [Result.db]. rewrite Hi2.
    cbn [fst snd succeeded Result.toast Result.db].
    split; [reflexivity|]. split; [reflexivity|]. split.
    + cbn [Db.user_sessions].
      rewrite !active_sessions_of_user_inserted by reflexivity.
      rewrite Hs. reflexivity.
    + unfold active_sessions_of_booking. cbn [Db.user_sessions].
      rewrite !sessions_of_booking_inserted by reflexivity.
      rewrite !filter_app, !length_app. simpl. lia.
Qed.

(** On the sample data: two operators, one after the other. *)
Lemma startBookingSession_check_then_insert_witness :
  let r1 := Part000.startBookingSession Sample.operator
              Sample.shown_confirmed "b1" (Sample.quiet_start "s1" 1000)
              Sample.db_confirmed in
  let r2 := Part000.startBookingSession Sample.other_operator
              Sample.shown_confirmed "b1" (Sample.quiet_start "s2" 1001)
              (Result.db r1) in
  succeeded r1 = true
  /\ Result.toast r2
     = Some (toast_error "Session is already active for this booking")
  /\ Result.db r2 = Result.db r1
  /\ List.length (active_sessions_of_booking "b1" (Result.db r2)) = 1%nat.
Proof.
  intros r1 r2.
  apply (proj1 (startBookingSession_check_then_insert Sample.operator
                  Sample.other_operator "b1" (Sample.quiet_start "s1" 1000)
                  (Sample.quiet_start "s2" 1001) Sample.db_confirmed
                  eq_refl eq_refl eq_refl)
           Sample.shown_confirmed Sample.shown_confirmed
           (Sample.booking "b1" 100 confirmed None (Some "cust-1"))
           (Sample.booking "b1" 100 confirmed None (Some "cust-1"))
           eq_refl eq_refl eq_refl).
Defined.

(** C3, counterexample.  Two operators start a session for the same
    confirmed booking at the same time: both existence checks reach the
    store before either insert.  Neither call is refused; both succeed and
    the booking has two active sessions.  The same happens in the pages
    version. *)
Lemma two_starts_at_once_both_succeed :
  let env1 := Sample.quiet_start "s1" 1000 in
  let env2 := Sample.quiet_start "s2" 1001 in
  let race :=
    both_check_then_both_insert
      (Part000.startBookingSession_check Sample.operator
         Sample.shown_confirmed "b1" env1)
      (Part000.startBookingSession_check Sample.other_operator
         Sample.shown_confirmed "b1" env2)
      (fun i => Part000.startBookingSession_insert i env1)
      (fun i => Part000.startBookingSession_insert i env2)
      Sample.db_confirmed in
  let race' :=
    both_check_then_both_insert
      (Pages.startBookingSession_check Sample.operator "b1" (Some "cust-1")
         env1)
      (Pages.startBookingSession_check Sample.other_operator "b1"
         (Some "cust-1") env2)
      (fun i => Pages.startBookingSession_insert i env1)
      (fun i => Pages.startBookingSession_insert i env2)
      Sample.db_confirmed in
  succeeded (fst (fst race)) = true
  /\ succeeded (snd (fst race)) = true
  /\ failed (snd (fst race)) = false
  /\ map Session.id (active_sessions_of_booking "b1" (snd race)) = ["s1"; "s2"]
  /\ succeeded (fst (fst race')) = true
  /\ succeeded (snd (fst race')) = true
  /\ map Session.id (active_sessions_of_booking "b1" (snd race'))
     = ["s1"; "s2"].
Proof. cbv zeta. repeat split. Qed.






(** A side remark on part_000: its check selects the sessions of the booking
    whatever their status and asks for at most one row.  Once the booking has
    two rows (here a completed and an active one) the check answers with
    error PGRST116, which the handler lets pass, and a second active session
    is inserted. *)
Example Part000_start_with_two_rows_inserts_again :
  let d := Db.mk [Sample.booking "b1" 100 confirmed None (Some "cust-1")]
             [Sample.session "s1" "b1" 0 completed;
              Sample.session "s2" "b1" 500 active] in
  let r := Part000.startBookingSession Sample.operator Sample.shown_confirmed
             "b1" (Sample.quiet_start "s3" 1000) d in
  succeeded r = true
  /\ map Session.id (active_sessions_of_booking "b1" (Result.db r))
     = ["s2"; "s3"].
Proof. cbv zeta. repeat split. Qed.

(* ------------------------------------------------------------------------- *)
(** ** The bookings list: search and status filter *)

Lemma prefix_refl (s : string) : String.prefix s s = true.
Proof.
  induction s as [|c s IH]; simpl; [reflexivity|].
  destruct (ascii_dec c c); [exact IH|congruence].
Qed.

Lemma includes_refl (s : string) : includes s s = true.
Proof.
  destruct s as [|a s]; [reflexivity|].
  change (includes (String a s) (String a s))
    with (if String.prefix (String a s) (String a s) then true
          else includes s (String a s)).
  rewrite prefix_refl. reflexivity.
Qed.

Lemma includes_empty (s : string) : includes s "" = true.
Proof. destruct s; reflexivity. Qed.

Lemma filter_length_In {A : Type} (p : A -> bool) (l : list A) :
  (List.length (filter p l) <= List.length l)%nat
  /\ (forall x, In x (filter p l) -> In x l).
Proof.
  split.
  - induction l as [|a l IH]; simpl; [lia|]. destruct (p a); simpl; lia.
  - intros x H. apply filter_In in H. tauto.
Qed.

Ltac orb_true :=
  repeat (rewrite orb_true_r || rewrite orb_true_l); try reflexivity.

(** X1.  In both versions [filterBookings] shows bookings of the list only,
    and never more of them than the list holds ("Showing N of M" has
    N <= M); with no search term and, in part_000, the status filter on
    "all", it shows the whole list as it is. *)
Theorem filterBookings_shows_bookings_of_the_list
  (toLowerCase trim : string -> string) (bookings : list Booking.t)
  (searchTerm statusFilter : string) :
  let shown := Part000Ui.filterBookings toLowerCase bookings searchTerm
                 statusFilter in
  let shown' := PagesUi.filterBookings toLowerCase trim bookings searchTerm in
  (List.length shown <= List.length bookings)%nat
  /\ (forall b, In b shown -> In b bookings)
  /\ (List.length shown' <= List.length bookings)%nat
  /\ (forall b, In b shown' -> In b bookings)
  /\ Part000Ui.filterBookings toLowerCase bookings "" "all" = bookings
  /\ (trim searchTerm = "" -> shown' = bookings).
Proof.
  intros shown shown'. subst shown shown'.
  unfold Part000Ui.filterBookings, PagesUi.filterBookings.
  assert (H1 : forall (p : Booking.t -> bool) (l : list Booking.t) (c : bool),
             (List.length (if c then filter p l else l) <= List.length l)%nat
             /\ (forall x, In x (if c then filter p l else l) -> In x l)).
  { intros p l [|]; [apply filter_length_In|split; [lia|tauto]]. }
  repeat apply conj.
  - eapply Nat.le_trans; [apply H1|apply H1].
  - intros b Hb. apply H1 in Hb. apply H1 in Hb. exact Hb.
  - destruct (trim searchTerm =? "")%string; [lia|apply filter_length_In].
  - destruct (trim searchTerm =? "")%string; [tauto|apply filter_length_In].
  - reflexivity.
  - intros ->. reflexivity.
Qed.

(** X2.  With an empty search term, the status filter of part_000 shows
    exactly the bookings whose status is the selected one; a filter value that
    is no status (and is not "all") shows nothing. *)
Theorem filterBookings_status_filter (toLowerCase : string -> string)
  (bookings : list Booking.t) (statusFilter : string) :
  statusFilter <> "all" ->
  (forall b,
     In b (Part000Ui.filterBookings toLowerCase bookings "" statusFilter)
     <-> In b bookings /\ status_text (Booking.status b) = statusFilter)
  /\ ((forall s, status_text s <> statusFilter) ->
      Part000Ui.filterBookings toLowerCase bookings "" statusFilter = []).
Proof.
  intros Hall. unfold Part000Ui.filterBookings. simpl.
  apply String.eqb_neq in Hall. rewrite Hall. simpl. split.
  - intros b. rewrite filter_In, String.eqb_eq. reflexivity.
  - intros Hno. induction bookings as [|b l IH]; simpl; [reflexivity|].
    destruct (String.eqb_spec (status_text (Booking.status b)) statusFilter)
      as [E|_]; [destruct (Hno _ E)|exact IH].
Qed.

(** On the sample data: the filter on "pending". *)
Lemma filterBookings_status_filter_witness :
  map Booking.id
    (Part000Ui.filterBookings toLowerCase_ascii Sample.four_bookings ""
       "pending") = ["b4"]
  /\ In (Sample.booking "b4" 50 pending None None)
       (Part000Ui.filterBookings toLowerCase_ascii Sample.four_bookings ""
          "pending").
Proof.
  split; [reflexivity|].
  apply (proj1 (filterBookings_status_filter toLowerCase_ascii
                  Sample.four_bookings "pending" ltac:(discriminate))).
  split; [right; right; right; left|]; reflexivity.
Defined.

(** X3.  A search for the full text of a searched field finds the booking
    among those the status filter lets through.  In part_000 the searched
    fields are the customer's name, e-mail, phone and WhatsApp number, the
    workspace type, the booking id, the date, the time slot and the duration,
    and the booking is shown when the status filter is "all" or the status of
    the booking (and is not shown under any other filter value, whatever the
    search); in the pages version, which has no status filter, the status and
    the confirmation code are searched as well. *)
Theorem filterBookings_finds_exact_field
  (toLowerCase trim : string -> string) (bookings : list Booking.t)
  (searchTerm statusFilter : string) (b : Booking.t) :
  In b bookings ->
  (In searchTerm
     [Booking.customer_name b; Booking.customer_email b;
      Booking.customer_phone b; Booking.customer_whatsapp b;
      Booking.workspace_type b; Booking.id b; Booking.date b;
      Booking.time_slot b; Booking.duration b] ->
   (statusFilter = "all"
    \/ statusFilter = status_text (Booking.status b) ->
    In b (Part000Ui.filterBookings toLowerCase bookings searchTerm
            statusFilter))
   /\ In b (PagesUi.filterBookings toLowerCase trim bookings searchTerm))
  /\ (statusFilter <> "all" ->
      statusFilter <> status_text (Booking.status b) ->
      ~ In b (Part000Ui.filterBookings toLowerCase bookings searchTerm
                statusFilter))
  /\ (searchTerm = status_text (Booking.status b)
      \/ Booking.confirmation_code b = Some searchTerm ->
      In b (PagesUi.filterBookings toLowerCase trim bookings searchTerm)).
Proof.
  intros Hin.
  assert (Hshow : forall p,
             p b = true ->
             In b (if negb (searchTerm =? "")%string then filter p bookings
                   else bookings)).
  { intros p Hp. destruct (negb _); [apply filter_In; split|]; assumption. }
  assert (Hshow' : PagesUi.matches_search toLowerCase searchTerm b = true ->
                   In b (PagesUi.filterBookings toLowerCase trim bookings
                           searchTerm)).
  { intros Hp. unfold PagesUi.filterBookings.
    destruct (trim searchTerm =? "")%string;
      [|apply filter_In; split]; assumption. }
  split; [|split].
  - intros Hf. split.
    + intros Hstatus. unfold Part000Ui.filterBookings. cbv zeta.
      assert (Hsearched :
                In b (if negb (searchTerm =? "")%string
                      then filter (Part000Ui.matches_search toLowerCase
                                     searchTerm) bookings
                      else bookings)).
      { apply Hshow. unfold Part000Ui.matches_search. simpl in Hf.
        repeat (destruct Hf as [Hf|Hf];
                [rewrite Hf, includes_refl; orb_true|]).
        destruct Hf. }
      destruct (String.eqb_spec statusFilter "all") as [_|Hne]; cbn [negb];
        [exact Hsearched|].
      apply filter_In. split; [exact Hsearched|].
      destruct Hstatus as [E|E]; [contradiction|].
      rewrite E. apply String.eqb_refl.
    + apply Hshow'. unfold PagesUi.matches_search.
      simpl in Hf.
      repeat (destruct Hf as [Hf|Hf];
              [rewrite Hf, includes_refl; orb_true|]).
      destruct Hf.
  - intros Hall Hother Hshown. unfold Part000Ui.filterBookings in Hshown.
    cbv zeta in Hshown.
    apply String.eqb_neq in Hall. rewrite Hall in Hshown. cbn [negb] in Hshown.
    apply filter_In in Hshown. destruct Hshown as [_ E].
    apply String.eqb_eq in E. congruence.
  - intros [Hs|Hc]; apply Hshow'; unfold PagesUi.matches_search.
    + rewrite <- Hs, includes_refl. orb_true.
    + rewrite Hc.
      destruct (String.eqb_spec searchTerm "") as [->|_]; simpl.
      * rewrite !includes_empty. orb_true.
      * rewrite includes_refl. orb_true.
Qed.

(** On the sample data: a search for the booking id b3, under the status
    filters "confirmed" and "pending". *)
Lemma filterBookings_finds_exact_field_witness :
  In (Sample.booking "b3" 300 confirmed None None)
    (Part000Ui.filterBookings toLowerCase_ascii Sample.four_bookings "b3"
       "confirmed")
  /\ Part000Ui.filterBookings toLowerCase_ascii Sample.four_bookings "b3"
       "pending" = []
  /\ map Booking.id
       (PagesUi.filterBookings toLowerCase_ascii trim_ascii
          Sample.four_bookings "PENDING") = ["b4"].
Proof.
  split; [|split; reflexivity].
  apply (proj1 (proj1 (filterBookings_finds_exact_field toLowerCase_ascii
                         trim_ascii Sample.four_bookings "b3" "confirmed"
                         (Sample.booking "b3" 300 confirmed None None)
                         ltac:(right; right; left; reflexivity))
                  ltac:(right; right; right; right; right; left; reflexivity))).
  right. reflexivity.
Defined.

(* ------------------------------------------------------------------------- *)
(** ** Site settings: save and reload *)

Import Part000Settings.

Lemma lookup_assign (k k' v : string) (acc : list (string * string)) :
  lookup k (assign k' v acc)
  = if (k' =? k)%string then Some v else lookup k acc.
Proof.
  induction acc as [|[k0 v0] rest IH]; simpl; [reflexivity|].
  destruct (String.eqb_spec k0 k') as [->|Hne]; simpl.
  - destruct (k' =? k)%string; reflexivity.
  - rewrite IH.
    destruct (String.eqb_spec k0 k) as [->|_]; [|reflexivity].
    destruct (String.eqb_spec k' k) as [->|_]; [congruence|reflexivity].
Qed.

Lemma lookup_fold_acc (k : string) (rows : list Setting.t)
  (acc1 acc2 : list (string * string)) :
  lookup k acc1 = lookup k acc2 ->
  lookup k (fold_left (fun acc r => assign (Setting.key r) (Setting.value r) acc)
              rows acc1)
  = lookup k (fold_left (fun acc r => assign (Setting.key r) (Setting.value r) acc)
                rows acc2).
Proof.
  revert acc1 acc2. induction rows as [|r rows IH]; intros acc1 acc2 H; simpl;
    [exact H|].
  apply IH. rewrite !lookup_assign, H. reflexivity.
Qed.

(** What the reduce leaves under a key depends on the rows of that key
    only. *)
Lemma lookup_settingsMap_filter (k : string) (rows : list Setting.t) :
  lookup k (settingsMap rows)
  = lookup k (settingsMap (filter (fun r => (Setting.key r =? k)%string) rows)).
Proof.
  unfold settingsMap. generalize (@nil (string * string)) as acc.
  induction rows as [|r rows IH]; intros acc; simpl; [reflexivity|].
  destruct (String.eqb_spec (Setting.key r) k) as [E|Hne]; simpl.
  - apply IH.
  - rewrite IH. apply lookup_fold_acc. rewrite lookup_assign.
    destruct (String.eqb_spec (Setting.key r) k); [congruence|reflexivity].
Qed.

Lemma lookup_settingsMap_all (k v : string) (rows : list Setting.t) :
  rows <> [] ->
  (forall r, In r rows -> Setting.key r = k /\ Setting.value r = v) ->
  lookup k (settingsMap rows) = Some v.
Proof.
  unfold settingsMap. generalize (@nil (string * string)) as acc.
  induction rows as [|r rows IH]; intros acc Hne Hall; [congruence|].
  simpl. destruct (Hall r (or_introl eq_refl)) as [Hk Hv].
  destruct rows as [|r' rows'].
  - simpl. rewrite lookup_assign, Hk, String.eqb_refl, Hv. reflexivity.
  - apply IH; [discriminate|]. intros x Hx. apply Hall. right. exact Hx.
Qed.

Lemma filter_key_upsert_other (k : string) (u : Setting.t)
  (table : list Setting.t) :
  Setting.key u <> k ->
  filter (fun r => (Setting.key r =? k)%string) (upsert u table)
  = filter (fun r => (Setting.key r =? k)%string) table.
Proof.
  intros Hne. unfold upsert.
  destruct (existsb _ table).
  - induction table as [|r l IH]; simpl; [reflexivity|].
    destruct (String.eqb_spec (Setting.key r) (Setting.key u)) as [E|_].
    + destruct (String.eqb_spec (Setting.key u) k); [congruence|].
      destruct (String.eqb_spec (Setting.key r) k); [congruence|exact IH].
    + destruct (Setting.key r =? k)%string; rewrite IH; reflexivity.
  - rewrite filter_app. simpl.
    destruct (String.eqb_spec (Setting.key u) k); [congruence|].
    apply app_nil_r.
Qed.

Lemma filter_key_upsert_same (u : Setting.t) (table : list Setting.t) :
  let rows := filter (fun r => (Setting.key r =? Setting.key u)%string)
                (upsert u table) in
  rows <> [] /\ forall r, In r rows -> r = u.
Proof.
  unfold upsert.
  destruct (existsb _ table) eqn:Hex.
  - split.
    + apply existsb_exists in Hex. destruct Hex as (r & Hr & Hk).
      intros Hnil.
      assert (Hin : In u (filter (fun r => (Setting.key r =? Setting.key u)%string)
                            (map (fun r => if (Setting.key r =? Setting.key u)%string
                                           then u else r) table))).
      { apply filter_In. split; [|apply String.eqb_refl].
        apply in_map_iff. exists r. rewrite Hk. split; [reflexivity|exact Hr]. }
      rewrite Hnil in Hin. destruct Hin.
    + intros r Hr. apply filter_In in Hr. destruct Hr as [Hr Hk].
      apply in_map_iff in Hr. destruct Hr as (r0 & Hr0 & _).
      destruct (Setting.key r0 =? Setting.key u)%string eqn:E;
        [congruence|]. subst r0. congruence.
  - rewrite filter_app. simpl. rewrite String.eqb_refl.
    assert (Hno : filter (fun r => (Setting.key r =? Setting.key u)%string) table
                  = []).
    { clear -Hex. induction table as [|r l IH]; simpl in *; [reflexivity|].
      apply orb_false_iff in Hex. destruct Hex as [E Hex].
      rewrite E. apply IH, Hex. }
    rewrite Hno. simpl. split; [discriminate|].
    intros r [<-|[]]. reflexivity.
Qed.

Lemma filter_select_in_keys (k : string) (table : list Setting.t) :
  In k keys ->
  filter (fun r => (Setting.key r =? k)%string) (select_in_keys table)
  = filter (fun r => (Setting.key r =? k)%string) table.
Proof.
  intros Hk. unfold select_in_keys.
  induction table as [|r l IH]; [reflexivity|]. cbn [filter].
  destruct (existsb (fun k0 => (Setting.key r =? k0)%string) keys) eqn:Hex;
    cbn [filter].
  - rewrite IH. reflexivity.
  - destruct (String.eqb_spec (Setting.key r) k) as [E|_]; [|exact IH].
    exfalso. assert (existsb (fun k0 => (Setting.key r =? k0)%string) keys = true)
      as Ht; [|congruence].
    apply existsb_exists. exists k. split; [exact Hk|].
    apply String.eqb_eq, E.
Qed.

(** What a reload reads under one of the three keys depends on the rows of
    that key only. *)
Lemma reload_reads_rows_of_key (k : string) (t1 t2 : list Setting.t) :
  In k keys ->
  filter (fun r => (Setting.key r =? k)%string) t1
  = filter (fun r => (Setting.key r =? k)%string) t2 ->
  lookup k (settingsMap (select_in_keys t1))
  = lookup k (settingsMap (select_in_keys t2)).
Proof.
  intros Hk H.
  rewrite (lookup_settingsMap_filter k (select_in_keys t1)),
    (lookup_settingsMap_filter k (select_in_keys t2)),
    !filter_select_in_keys, H by exact Hk.
  reflexivity.
Qed.

Lemma reload_after_upsert_same (u : Setting.t) (table : list Setting.t) :
  In (Setting.key u) keys ->
  lookup (Setting.key u) (settingsMap (select_in_keys (upsert u table)))
  = Some (Setting.value u).
Proof.
  intros Hk.
  rewrite lookup_settingsMap_filter, filter_select_in_keys by exact Hk.
  destruct (filter_key_upsert_same u table) as [Hne Hall].
  apply lookup_settingsMap_all; [exact Hne|].
  intros r Hr. rewrite (Hall r Hr). split; reflexivity.
Qed.

Lemma reload_after_upsert_other (k : string) (u : Setting.t)
  (table : list Setting.t) :
  In k keys -> Setting.key u <> k ->
  lookup k (settingsMap (select_in_keys (upsert u table)))
  = lookup k (settingsMap (select_in_keys table)).
Proof.
  intros Hk Hne. apply reload_reads_rows_of_key; [exact Hk|].
  apply filter_key_upsert_other, Hne.
Qed.

Lemma keys_total_desks : In "total_desks" keys.
Proof. left; reflexivity. Qed.

Lemma keys_hourly_slots : In "hourly_slots" keys.
Proof. right; left; reflexivity. Qed.

Lemma keys_booking_durations : In "booking_durations" keys.
Proof. right; right; left; reflexivity. Qed.

Lemma upsert_each_no_error (us : list Setting.t) (n : nat) (env : SaveEnv)
  (table : list Setting.t) :
  (forall m, save_error env m = None) ->
  upsert_each us n env table
  = (fold_left (fun t u => upsert u t) us table, None).
Proof.
  intros Hno. revert n table.
  induction us as [|u us IH]; intros n table; simpl; [reflexivity|].
  rewrite Hno. apply IH.
Qed.

(** X4.  Saving and reloading gives back what was saved: after a
    [saveSettings] to which the store reports no error, a [fetchSettings]
    sets the three settings to exactly the saved values, whatever the table
    held before and whatever the component showed before the reload. *)
Theorem saveSettings_then_fetchSettings (settings prev : Settings)
  (env : SaveEnv) (table : list Setting.t) :
  (forall n, save_error env n = None) ->
  let saved := saveSettings settings env table in
  snd (fst saved) = toast_success "Settings saved successfully"
  /\ fetchSettings prev None (fst (fst saved)) = (settings, []).
Proof.
  intros Hno saved. subst saved. unfold saveSettings.
  rewrite (upsert_each_no_error _ _ _ _ Hno). simpl fold_left.
  split; [reflexivity|]. cbn [fst snd]. unfold fetchSettings, spread.
  set (u1 := Setting.mk "total_desks" (total_desks settings) (save_now env 0%nat)).
  set (u2 := Setting.mk "hourly_slots" (hourly_slots settings) (save_now env 1%nat)).
  set (u3 := Setting.mk "booking_durations" (booking_durations settings)
               (save_now env 2%nat)).
  rewrite (reload_after_upsert_other "total_desks" u3)
    by (try apply keys_total_desks; discriminate).
  rewrite (reload_after_upsert_other "total_desks" u2)
    by (try apply keys_total_desks; discriminate).
  rewrite (reload_after_upsert_same u1) by apply keys_total_desks.
  rewrite (reload_after_upsert_other "hourly_slots" u3)
    by (try apply keys_hourly_slots; discriminate).
  rewrite (reload_after_upsert_same u2) by apply keys_hourly_slots.
  rewrite (reload_after_upsert_same u3) by apply keys_booking_durations.
  destruct settings; reflexivity.
Qed.

(** On the sample data: an empty table, three desks. *)
Lemma saveSettings_then_fetchSettings_witness :
  let settings := mkSettings "3" "9:00 AM" "1 hour" in
  let env := mkSaveEnv (fun _ => 1000) (fun _ => None) in
  fetchSettings initial None (fst (fst (saveSettings settings env [])))
  = (settings, []).
Proof.
  intros settings env.
  apply (saveSettings_then_fetchSettings settings initial env []
           (fun _ => eq_refl)).
Defined.

(** X5.  [saveSettings] writes one setting after the other and stops at the
    first error, without taking back what it wrote.  When the store refuses
    the second upsert, the toast reports the failure, and a reload then shows
    the new number of desks together with the hourly slots and booking
    durations as they were before the save.  When it refuses the first, the
    table is left as it was. *)
Theorem saveSettings_stops_at_first_error (settings prev : Settings)
  (env : SaveEnv) (table : list Setting.t) (e : PostgrestError) :
  let saved := saveSettings settings env table in
  let reloaded := fst (fetchSettings prev None (fst (fst saved))) in
  let before := fst (fetchSettings prev None table) in
  (save_error env 0%nat = None -> save_error env 1%nat = Some e ->
   snd (fst saved) = toast_error "Failed to save settings"
   /\ total_desks reloaded = total_desks settings
   /\ hourly_slots reloaded = hourly_slots before
   /\ booking_durations reloaded = booking_durations before)
  /\ (save_error env 0%nat = Some e ->
      snd (fst saved) = toast_error "Failed to save settings"
      /\ fst (fst saved) = table).
Proof.
  intros saved reloaded before. subst saved reloaded before.
  unfold saveSettings. simpl upsert_each. split.
  - intros H0 H1. rewrite H0, H1. cbn [fst snd].
    split; [reflexivity|]. unfold fetchSettings, spread. cbn [fst snd
      total_desks hourly_slots booking_durations].
    set (u1 := Setting.mk "total_desks" (total_desks settings)
                 (save_now env 0%nat)).
    rewrite (reload_after_upsert_same u1) by apply keys_total_desks.
    rewrite (reload_after_upsert_other "hourly_slots" u1)
      by (try apply keys_hourly_slots; discriminate).
    rewrite (reload_after_upsert_other "booking_durations" u1)
      by (try apply keys_booking_durations; discriminate).
    repeat split.
  - intros H0. rewrite H0. split; reflexivity.
Qed.

(** X6.  [saveSettings] touches the rows of its three keys only: whatever
    the store answers, every other row of [site_settings] is still there
    afterwards, unchanged and in the same order. *)
Theorem saveSettings_keeps_other_rows (settings : Settings) (env : SaveEnv)
  (table : list Setting.t) :
  let other r := negb (existsb (fun k => (Setting.key r =? k)%string) keys) in
  filter other (fst (fst (saveSettings settings env table)))
  = filter other table.
Proof.
  intros other.
  assert (Hup : forall u t, In (Setting.key u) keys ->
                            filter other (upsert u t) = filter other t).
  { intros u t Hu. unfold upsert.
    assert (Hou : other u = false).
    { unfold other. apply negb_false_iff, existsb_exists.
      exists (Setting.key u). split; [exact Hu|apply String.eqb_refl]. }
    destruct (existsb _ t).
    - induction t as [|r l IH]; [reflexivity|]. cbn [map filter].
      destruct (String.eqb_spec (Setting.key r) (Setting.key u)) as [E|_].
      + rewrite Hou.
        assert (other r = false) as ->; [|exact IH].
        unfold other. rewrite E. exact Hou.
      + rewrite IH. reflexivity.
    - rewrite filter_app. cbn [filter]. rewrite Hou. apply app_nil_r. }
  assert (Hall : forall us n t,
             (forall u, In u us -> In (Setting.key u) keys) ->
             filter other (fst (upsert_each us n env t)) = filter other t).
  { induction us as [|u us IH]; intros n t Hk; [reflexivity|].
    cbn [upsert_each]. destruct (save_error env n); [reflexivity|].
    rewrite IH by (intros x Hx; apply Hk; right; exact Hx).
    apply Hup, Hk. left. reflexivity. }
  unfold saveSettings.
  specialize (Hall (updates settings env) 0%nat table).
  destruct (upsert_each (updates settings env) 0 env table) as [t' [err|]];
    cbn [fst] in *; apply Hall;
    intros u [<-|[<-|[<-|[]]]];
    [apply keys_total_desks|apply keys_hourly_slots|apply keys_booking_durations
    |apply keys_total_desks|apply keys_hourly_slots|apply keys_booking_durations].
Qed.

(** X7.  [fetchSettings] changes a setting only when the table has a row for
    it: a key without a row keeps the value the component had (on a table
    with none of the three rows, the built-in defaults stay), rows of other
    keys are not read, and when the store reports an error nothing
    changes. *)
Theorem fetchSettings_keeps_what_has_no_row (prev : Settings)
  (table : list Setting.t) (e : PostgrestError) :
  let loaded := fst (fetchSettings prev None table) in
  ((forall r, In r table -> Setting.key r <> "total_desks") ->
   total_desks loaded = total_desks prev)
  /\ ((forall r, In r table -> Setting.key r <> "hourly_slots") ->
      hourly_slots loaded = hourly_slots prev)
  /\ ((forall r, In r table -> Setting.key r <> "booking_durations") ->
      booking_durations loaded = booking_durations prev)
  /\ fst (fetchSettings prev (Some e) table) = prev.
Proof.
  intros loaded. subst loaded.
  assert (Hnone : forall k, In k keys ->
             (forall r, In r table -> Setting.key r <> k) ->
             lookup k (settingsMap (select_in_keys table)) = None).
  { intros k Hk Hno.
    rewrite lookup_settingsMap_filter, filter_select_in_keys by exact Hk.
    assert (filter (fun r => (Setting.key r =? k)%string) table = []) as ->;
      [|reflexivity].
    induction table as [|r l IH]; [reflexivity|]. cbn [filter].
    destruct (String.eqb_spec (Setting.key r) k) as [E|_].
    - destruct (Hno r (or_introl eq_refl) E).
    - apply IH. intros x Hx. apply Hno. right. exact Hx. }
  unfold fetchSettings, spread. cbn [fst total_desks hourly_slots
    booking_durations].
  repeat apply conj; try reflexivity; intros Hno.
  - rewrite (Hnone _ keys_total_desks Hno). reflexivity.
  - rewrite (Hnone _ keys_hourly_slots Hno). reflexivity.
  - rewrite (Hnone _ keys_booking_durations Hno). reflexivity.
Qed.

(* ------------------------------------------------------------------------- *)
(** ** Who is signed in, and who sees the dashboard *)

Lemma or_else_nonempty (a : option string) (b : string) :
  b <> "" -> or_else a b <> "".
Proof.
  intros Hb. destruct a as [s|]; simpl; [|exact Hb].
  destruct (String.eqb_spec s ""); [exact Hb|assumption].
Qed.

Lemma before_at_no_at (s : string) :
  includes (AuthContext.before_at s) "@" = false.
Proof.
  induction s as [|c s IH]; [reflexivity|]. simpl AuthContext.before_at.
  destruct (Ascii.eqb_spec c "@"%char) as [->|Hc]; [reflexivity|].
  cbn [includes String.prefix].
  destruct (ascii_dec "@"%char c) as [E|_]; [congruence|exact IH].
Qed.

(** X8.  [mapSupabaseUser] never yields an empty name: it takes the name of
    the metadata, else the part of the e-mail address before the at sign,
    else "User".  When the metadata has no name and that part of the address
    is not empty, the name is that part, and holds no at sign. *)
Theorem mapSupabaseUser_name (su : AuthContext.SupabaseUser) :
  let u := AuthContext.mapSupabaseUser su in
  User.name u <> ""
  /\ User.id u = AuthContext.su_id su
  /\ (forall e,
        match AuthContext.user_metadata su with
        | Some m => truthy (AuthContext.md_name m) = false
        | None => True
        end ->
        AuthContext.su_email su = Some e ->
        AuthContext.before_at e <> "" ->
        User.name u = AuthContext.before_at e
        /\ includes (User.name u) "@" = false).
Proof.
  intros u. subst u. unfold AuthContext.mapSupabaseUser. cbn [User.name User.id].
  split; [|split; [reflexivity|]].
  - apply or_else_nonempty, or_else_nonempty. discriminate.
  - intros e Hm He Hb. rewrite He. cbn [option_map].
    assert (Hn : forall n, truthy n = false ->
                           or_else n (or_else (Some (AuthContext.before_at e))
                                        "User")
                           = AuthContext.before_at e).
    { intros [n|] Hn; simpl in *.
      - destruct (n =? "")%string; [|discriminate].
        destruct (String.eqb_spec (AuthContext.before_at e) "");
          [contradiction|reflexivity].
      - destruct (String.eqb_spec (AuthContext.before_at e) "");
          [contradiction|reflexivity]. }
    destruct (AuthContext.user_metadata su) as [m|];
      (rewrite Hn; [split; [reflexivity|apply before_at_no_at]|]);
      [exact Hm|reflexivity].
Qed.

(** X9.  An account without a role is a customer and does not get the
    dashboard: this holds for the user set by the auth listener, by [login]
    and by [refreshUserSession] from an auth record whose metadata names no
    role when the [users] table has no row for it, and for every user set by
    [register]. *)
Theorem dashboard_not_shown_without_a_role (su : AuthContext.SupabaseUser)
  (table : list User.t) :
  (forall m, AuthContext.user_metadata su = Some m ->
             AuthContext.md_role m = None) ->
  (forall u, In u table -> User.id u <> AuthContext.su_id su) ->
  dashboardShown (AuthContext.onAuthStateChange (Some su)) = false
  /\ (forall env current,
        AuthContext.signIn env = inl (Some su) ->
        dashboardShown (AuthContext.user (AuthContext.login env table current))
        = false)
  /\ (forall fault,
        dashboardShown
          (AuthContext.user (AuthContext.refreshUserSession (Some su) fault table))
        = false)
  /\ (forall email name whatsapp insert_error,
        dashboardShown
          (AuthContext.user
             (AuthContext.register email name whatsapp (inl (Some su))
                insert_error table None))
        = false).
Proof.
  intros Hrole Hnone.
  assert (Hmap : User.role (AuthContext.mapSupabaseUser su) = customer).
  { unfold AuthContext.mapSupabaseUser. cbn [User.role].
    destruct (AuthContext.user_metadata su) as [m|]; [|reflexivity].
    rewrite (Hrole m eq_refl). reflexivity. }
  assert (Hsel : forall fault,
             exists e, AuthContext.select_profile fault (AuthContext.su_id su)
                         table = inr e).
  { intros fault. unfold AuthContext.select_profile, select_single.
    destruct fault as [e|]; [exists e; reflexivity|].
    assert (filter (fun u => (User.id u =? AuthContext.su_id su)%string) table
            = []) as ->; [|exists PGRST116; reflexivity].
    induction table as [|u l IH]; [reflexivity|]. cbn [filter].
    destruct (String.eqb_spec (User.id u) (AuthContext.su_id su)) as [E|_].
    - destruct (Hnone u (or_introl eq_refl) E).
    - apply IH. intros x Hx. apply Hnone. right. exact Hx. }
  remember (AuthContext.mapSupabaseUser su) as mapped eqn:Hmapped.
  assert (Hshown : dashboardShown (Some mapped) = false).
  { unfold dashboardShown. rewrite Hmap. reflexivity. }
  repeat apply conj.
  - unfold AuthContext.onAuthStateChange. cbn [option_map].
    rewrite <- Hmapped. exact Hshown.
  - intros env current Hs. unfold AuthContext.login. rewrite Hs.
    destruct (Hsel (AuthContext.login_profile_fault env)) as [e ->].
    rewrite <- Hmapped.
    destruct (AuthContext.login_insert_error env); exact Hshown.
  - intros fault. unfold AuthContext.refreshUserSession.
    destruct (Hsel fault) as [e ->]. rewrite <- Hmapped. exact Hshown.
  - intros email name whatsapp [e|]; reflexivity.
Qed.

(** On the sample data: a new account with an e-mail address only. *)
Lemma dashboard_not_shown_without_a_role_witness :
  let su := AuthContext.mkSupabaseUser "u1" (Some "nour@example.org") None in
  AuthContext.onAuthStateChange (Some su)
  = Some (User.mk "u1" "nour@example.org" "nour" None customer)
  /\ dashboardShown (AuthContext.onAuthStateChange (Some su)) = false.
Proof.
  intros su. split; [reflexivity|].
  apply (dashboard_not_shown_without_a_role su []); [discriminate|].
  intros u [].
Defined.

(** X10.  The row of the [users] table decides who the user is: when the
    table has one row for the signed-in account and the store answers,
    [login] and [refreshUserSession] set the user to that row, name and role
    included, whatever the metadata of the auth record say, and leave the
    table as it is. *)
Theorem login_takes_the_profile_row (su : AuthContext.SupabaseUser)
  (profile : User.t) (table : list User.t) (env : AuthContext.LoginEnv)
  (current : option User.t) :
  filter (fun u => (User.id u =? AuthContext.su_id su)%string) table
  = [profile] ->
  AuthContext.signIn env = inl (Some su) ->
  AuthContext.login_profile_fault env = None ->
  let logged := AuthContext.login env table current in
  let refreshed := AuthContext.refreshUserSession (Some su) None table in
  AuthContext.user logged = Some profile
  /\ AuthContext.users logged = table
  /\ AuthContext.thrown logged = None
  /\ AuthContext.updateUser_data logged
     = Some (User.name profile, User.whatsapp profile, User.role profile)
  /\ AuthContext.user refreshed = Some profile
  /\ AuthContext.users refreshed = table.
Proof.
  intros Hrow Hs Hf logged refreshed. subst logged refreshed.
  unfold AuthContext.login, AuthContext.refreshUserSession,
    AuthContext.select_profile, select_single.
  rewrite Hs, Hf, Hrow. simpl. repeat split.
Qed.

(** On the sample data: the table says admin, the metadata say nothing. *)
Lemma login_takes_the_profile_row_witness :
  let su := AuthContext.mkSupabaseUser "admin-7" (Some "ada@example.org") None in
  let env := AuthContext.mkLoginEnv (inl (Some su)) None None None in
  AuthContext.user (AuthContext.login env [Sample.other_operator] None)
  = Some Sample.other_operator
  /\ dashboardShown
       (AuthContext.user (AuthContext.login env [Sample.other_operator] None))
     = true.
Proof.
  intros su env.
  destruct (login_takes_the_profile_row su Sample.other_operator
              [Sample.other_operator] env None eq_refl eq_refl eq_refl)
    as (Hu & _).
  rewrite Hu. split; reflexivity.
Defined.

(** X11.  The first login of an account creates its profile, and later
    logins read it back: with no row for the account in [users] and an insert
    the store accepts, [login] appends the user mapped from the auth record;
    a later [login] or [refreshUserSession] of the same account then yields
    that same user, even if the auth record has changed in between, and adds
    no second row. *)
Theorem first_login_creates_the_profile (su su' : AuthContext.SupabaseUser)
  (table : list User.t) (env env' : AuthContext.LoginEnv)
  (current : option User.t) :
  filter (fun u => (User.id u =? AuthContext.su_id su)%string) table = [] ->
  AuthContext.signIn env = inl (Some su) ->
  AuthContext.login_insert_error env = None ->
  AuthContext.su_id su' = AuthContext.su_id su ->
  AuthContext.signIn env' = inl (Some su') ->
  AuthContext.login_profile_fault env' = None ->
  let first := AuthContext.login env table current in
  let second :=
    AuthContext.login env' (AuthContext.users first) (AuthContext.user first) in
  let refreshed :=
    AuthContext.refreshUserSession (Some su') None (AuthContext.users first) in
  AuthContext.users first = (table ++ [AuthContext.mapSupabaseUser su])%list
  /\ AuthContext.user first = Some (AuthContext.mapSupabaseUser su)
  /\ AuthContext.user second = Some (AuthContext.mapSupabaseUser su)
  /\ AuthContext.users second = AuthContext.users first
  /\ AuthContext.user refreshed = Some (AuthContext.mapSupabaseUser su).
Proof.
  intros Hnone Hs Hi Hid Hs' Hf' first second refreshed.
  assert (Hfirst : first
                   = AuthContext.mkOutcome
                       (table ++ [AuthContext.mapSupabaseUser su])
                       (Some (AuthContext.mapSupabaseUser su))
                       (match AuthContext.login_updateUser_error env with
                        | Some _ => ["Error updating user metadata:"]
                        | None => []
                        end) None
                       (Some (User.name (AuthContext.mapSupabaseUser su),
                              User.whatsapp (AuthContext.mapSupabaseUser su),
                              User.role (AuthContext.mapSupabaseUser su)))).
  { subst first. unfold AuthContext.login, AuthContext.select_profile,
      select_single.
    rewrite Hs, Hnone, Hi.
    destruct (AuthContext.login_profile_fault env); reflexivity. }
  assert (Hrow : filter (fun u => (User.id u =? AuthContext.su_id su')%string)
                   (table ++ [AuthContext.mapSupabaseUser su])
                 = [AuthContext.mapSupabaseUser su]).
  { rewrite Hid, filter_app, Hnone. simpl. rewrite String.eqb_refl.
    reflexivity. }
  subst second refreshed. rewrite Hfirst. cbn [AuthContext.users AuthContext.user].
  unfold AuthContext.login, AuthContext.refreshUserSession,
    AuthContext.select_profile, select_single.
  rewrite Hs', Hf', Hrow. simpl. repeat split.
Qed.

(** On the sample data: two logins of a new account. *)
Lemma first_login_creates_the_profile_witness :
  let su := AuthContext.mkSupabaseUser "u1" (Some "nour@example.org") None in
  let su' := AuthContext.mkSupabaseUser "u1" (Some "nour@example.org")
               (Some (AuthContext.mkMetadata (Some "N.") None (Some admin))) in
  let first := AuthContext.login
                 (AuthContext.mkLoginEnv (inl (Some su)) None None None)
                 [Sample.operator] None in
  let second := AuthContext.login
                  (AuthContext.mkLoginEnv (inl (Some su')) None None None)
                  (AuthContext.users first) (AuthContext.user first) in
  AuthContext.user second
  = Some (User.mk "u1" "nour@example.org" "nour" None customer).
Proof.
  intros su su' first second.
  apply (first_login_creates_the_profile su su' [Sample.operator]
           (AuthContext.mkLoginEnv (inl (Some su)) None None None)
           (AuthContext.mkLoginEnv (inl (Some su')) None None None) None
           eq_refl eq_refl eq_refl eq_refl eq_refl eq_refl).
Defined.

(* ------------------------------------------------------------------------- *)
(** ** What no sequence of handler calls does *)

Lemma session_kept_refl (s : Session.t) : session_kept s s.
Proof. split; [reflexivity|tauto]. Qed.

Lemma session_kept_trans (a b c : Session.t) :
  session_kept a b -> session_kept b c -> session_kept a c.
Proof. intros [H1 H2] [H3 H4]. split; [congruence|tauto]. Qed.

Lemma Forall2_refl_on {A : Type} (R : A -> A -> Prop) (l : list A) :
  (forall x, R x x) -> Forall2 R l l.
Proof. intros HR. induction l; constructor; auto. Qed.

Lemma Forall2_trans_on {A : Type} (R : A -> A -> Prop) (l1 l2 l3 : list A) :
  (forall x y z, R x y -> R y z -> R x z) ->
  Forall2 R l1 l2 -> Forall2 R l2 l3 -> Forall2 R l1 l3.
Proof.
  intros HR H12. revert l3.
  induction H12 as [|x y l1 l2 Hxy _ IH]; intros l3 H23; inversion H23; subst;
    constructor; eauto.
Qed.

Lemma Forall2_map_r {A : Type} (R : A -> A -> Prop) (f : A -> A) (l : list A) :
  (forall x, R x (f x)) -> Forall2 R l (map f l).
Proof. intros HR. induction l; simpl; constructor; auto. Qed.

Lemma Forall2_nth_error_l {A : Type} (R : A -> A -> Prop) (l l' : list A)
  (n : nat) (x : A) :
  Forall2 R l l' -> nth_error l n = Some x ->
  exists y, nth_error l' n = Some y /\ R x y.
Proof.
  intros H. revert n. induction H as [|a b l l' Hab _ IH]; intros n Hn.
  - destruct n; discriminate.
  - destruct n as [|n]; simpl in *.
    + inversion Hn; subst. eauto.
    + apply IH, Hn.
Qed.

Lemma sessions_grow_refl (l : list Session.t) : sessions_grow l l.
Proof.
  exists l, []. split; [symmetry; apply app_nil_r|].
  apply Forall2_refl_on, session_kept_refl.
Qed.

Lemma sessions_grow_trans (l1 l2 l3 : list Session.t) :
  sessions_grow l1 l2 -> sessions_grow l2 l3 -> sessions_grow l1 l3.
Proof.
  intros (k1 & a1 & -> & H1) (k2 & a2 & -> & H2).
  apply Forall2_app_inv_l in H2. destruct H2 as (k2a & k2b & Ha & _ & ->).
  exists k2a, (k2b ++ a2)%list. split; [symmetry; apply app_assoc|].
  eapply Forall2_trans_on; [apply session_kept_trans|exact H1|exact Ha].
Qed.

Lemma sessions_grow_nth_error (l l' : list Session.t) (n : nat)
  (s : Session.t) :
  sessions_grow l l' -> nth_error l n = Some s ->
  exists s', nth_error l' n = Some s' /\ session_kept s s'.
Proof.
  intros (kept & added & -> & H) Hn.
  destruct (Forall2_nth_error_l _ _ _ _ _ H Hn) as (s' & Hs' & Hk).
  exists s'. split; [|exact Hk].
  rewrite nth_error_app1; [exact Hs'|].
  apply nth_error_Some. congruence.
Qed.

(** What one call of a start handler does to the store: nothing, or it
    appends one row to [user_sessions]. *)
Lemma start_insert_db (txt : string) (i : SessionInsert) (env : StartEnv)
  (d : Db.t) :
  Result.db (start_insert txt i env d) = d
  \/ Result.db (start_insert txt i env d)
     = Db.mk (Db.bookings d) (Db.user_sessions d ++ [inserted_row i env]).
Proof.
  unfold start_insert. destruct (st_insert_error env); [left|right]; reflexivity.
Qed.

Lemma Part000_start_check_db (user : User.t) (bookings : list Booking.t)
  (bookingId : string) (env : StartEnv) (d : Db.t) (r : Result.t) :
  Part000.startBookingSession_check user bookings bookingId env d = inl r ->
  Result.db r = d.
Proof.
  unfold Part000.startBookingSession_check.
  destruct (find_booking bookingId bookings);
    [|intros H; inversion H; reflexivity].
  destruct (select_maybeSingle _ _) as [existing err].
  destruct (fatal_check_error err); [intros H; inversion H; reflexivity|].
  destruct existing as [s|]; [|discriminate].
  destruct (SessionStatus_eqb (Session.status s) active); [|discriminate].
  intros H; inversion H; reflexivity.
Qed.

Lemma Pages_start_check_db (user : User.t) (bookingId : string)
  (userId : option string) (env : StartEnv) (d : Db.t) (r : Result.t) :
  Pages.startBookingSession_check user bookingId userId env d = inl r ->
  Result.db r = d.
Proof.
  unfold Pages.startBookingSession_check.
  destruct (negb (truthy userId)); [intros H; inversion H; reflexivity|].
  destruct (select_maybeSingle _ _) as [existing err].
  destruct (fatal_check_error err); [intros H; inversion H; reflexivity|].
  destruct existing as [s|]; [|discriminate].
  intros H; inversion H; reflexivity.
Qed.

Lemma start_db_cases (d d' : Db.t) :
  (exists user bookings bookingId env,
     d' = Result.db (Part000.startBookingSession user bookings bookingId env d))
  \/ (exists user bookingId userId env,
        d' = Result.db (Pages.startBookingSession user bookingId userId env d)) ->
  d' = d
  \/ exists row, d' = Db.mk (Db.bookings d) (Db.user_sessions d ++ [row]).
Proof.
  intros [(user & bookings & bookingId & env & ->)
         |(user & bookingId & userId & env & ->)].
  - unfold Part000.startBookingSession.
    destruct (Part000.startBookingSession_check user bookings bookingId env d)
      as [r|i] eqn:Hc.
    + left. eapply Part000_start_check_db, Hc.
    + destruct (start_insert_db "Failed to start booking session" i env d)
        as [H|H]; [left|right; eexists]; exact H.
  - unfold Pages.startBookingSession.
    destruct (Pages.startBookingSession_check user bookingId userId env d)
      as [r|i] eqn:Hc.
    + left. eapply Pages_start_check_db, Hc.
    + destruct (start_insert_db "Failed to start session" i env d)
        as [H|H]; [left|right; eexists]; exact H.
Qed.

Lemma end_db_cases (user : User.t) (sessionId : string) (env : EndEnv)
  (d : Db.t) :
  let d' := Result.db (Part000.endBookingSession user sessionId env d) in
  d' = d
  \/ exists endTime durationMinutes,
       d' = Db.mk (Db.bookings d)
              (update_eq_id Session.id
                 (Part000.end_patch user endTime durationMinutes) sessionId
                 (Db.user_sessions d)).
Proof.
  unfold Part000.endBookingSession.
  destruct (select_single _ _) as [s|e]; [|left; reflexivity].
  destruct (end_update_error env); [left; reflexivity|].
  right. do 2 eexists.
  destruct (Part000.joined_booking s d); reflexivity.
Qed.

Lemma update_db_cases (user : User.t) (bookings : list Booking.t)
  (action_of success_text : BookingStatus -> string) (bookingId : string)
  (newStatus : BookingStatus) (code : option string) (env : UpdateEnv)
  (d : Db.t) :
  let d' := Result.db (updateBookingStatus user bookings action_of success_text
                         bookingId newStatus code env d) in
  d' = d
  \/ exists u,
       d' = Db.mk (update_eq_id Booking.id (apply_updateData u) bookingId
                     (Db.bookings d))
              (Db.user_sessions d).
Proof.
  unfold updateBookingStatus.
  destruct (upd_error env); [left; reflexivity|].
  right. eexists. destruct (find_booking bookingId bookings); reflexivity.
Qed.

Lemma keeps_same (d : Db.t) :
  Forall2 booking_kept (Db.bookings d) (Db.bookings d)
  /\ sessions_grow (Db.user_sessions d) (Db.user_sessions d).
Proof.
  split; [apply Forall2_refl_on; reflexivity|apply sessions_grow_refl].
Qed.

Lemma keeps_appended (d d' : Db.t) :
  d' = d
  \/ (exists row, d' = Db.mk (Db.bookings d) (Db.user_sessions d ++ [row])) ->
  Forall2 booking_kept (Db.bookings d) (Db.bookings d')
  /\ sessions_grow (Db.user_sessions d) (Db.user_sessions d').
Proof.
  intros [->|(row & ->)]; [apply keeps_same|]. cbn [Db.bookings Db.user_sessions].
  split; [apply (keeps_same d)|].
  exists (Db.user_sessions d), [row]. split; [reflexivity|].
  apply Forall2_refl_on, session_kept_refl.
Qed.

Lemma handler_step_keeps (d d' : Db.t) :
  handler_step d d' ->
  Forall2 booking_kept (Db.bookings d) (Db.bookings d')
  /\ sessions_grow (Db.user_sessions d) (Db.user_sessions d').
Proof.
  intros Hstep.
  destruct Hstep as [user bookings action_of success_text bid newStatus code
                       env d
                    |user bookings bid env d
                    |user bid uid env d
                    |user sid env d].
  - destruct (update_db_cases user bookings action_of success_text bid
                newStatus code env d) as [H|(u & H)];
      rewrite H; [apply keeps_same|]. cbn [Db.bookings Db.user_sessions].
    split; [|apply (keeps_same d)].
    apply Forall2_map_r. intros b.
    destruct (Booking.id b =? bid)%string; reflexivity.
  - apply keeps_appended, start_db_cases. left. eauto 6.
  - apply keeps_appended, start_db_cases. right. eauto 6.
  - destruct (end_db_cases user sid env d) as [H|(t & m & H)];
      rewrite H; [apply keeps_same|]. cbn [Db.bookings Db.user_sessions].
    split; [apply (keeps_same d)|].
    exists (update_eq_id Session.id (Part000.end_patch user t m) sid
              (Db.user_sessions d)), [].
    split; [symmetry; apply app_nil_r|].
    apply Forall2_map_r. intros s.
    destruct (Session.id s =? sid)%string;
      [split; reflexivity|apply session_kept_refl].
Qed.

Lemma handler_steps_keep (d d' : Db.t) :
  handler_steps d d' ->
  Forall2 booking_kept (Db.bookings d) (Db.bookings d')
  /\ sessions_grow (Db.user_sessions d) (Db.user_sessions d').
Proof.
  induction 1 as [d|d1 d2 d3 _ [IHb IHs] Hstep].
  - split; [apply Forall2_refl_on; reflexivity|apply sessions_grow_refl].
  - destruct (handler_step_keeps _ _ Hstep) as [Hb Hs]. split.
    + eapply Forall2_trans_on; [|exact IHb|exact Hb].
      unfold booking_kept. intros; congruence.
    + eapply sessions_grow_trans; eassumption.
Qed.

(** X12.  Whatever handlers run, in whatever order and with whatever
    arguments and answers from outside: a session row stays where it is in
    the table, is never removed, keeps its id, user, booking, type, start
    time and starter, and once completed is never active again. *)
Theorem handler_steps_keep_sessions (d d' : Db.t) (n : nat) (s : Session.t) :
  handler_steps d d' ->
  nth_error (Db.user_sessions d) n = Some s ->
  exists s',
    nth_error (Db.user_sessions d') n = Some s'
    /\ Session.id s' = Session.id s
    /\ Session.user_id s' = Session.user_id s
    /\ Session.booking_id s' = Session.booking_id s
    /\ Session.session_type s' = Session.session_type s
    /\ Session.start_time s' = Session.start_time s
    /\ Session.started_by s' = Session.started_by s
    /\ (Session.status s = completed -> Session.status s' = completed).
Proof.
  intros Hsteps Hn.
  destruct (handler_steps_keep _ _ Hsteps) as [_ Hs].
  destruct (sessions_grow_nth_error _ _ _ _ Hs Hn) as (s' & Hs' & Hk & Hc).
  exists s'. split; [exact Hs'|].
  unfold session_as_started in Hk. inversion Hk. repeat split; assumption.
Qed.

(** On the sample data: a session is ended, then started and ended again. *)
Lemma handler_steps_keep_sessions_witness :
  let d1 := Result.db (Part000.endBookingSession Sample.operator "s1"
                         (Sample.quiet_end 125000)
                         Sample.db_one_active_session) in
  let d2 := Result.db (Part000.startBookingSession Sample.operator
                         Sample.shown_confirmed "b1"
                         (Sample.quiet_start "s2" 130000) d1) in
  let d3 := Result.db (Part000.endBookingSession Sample.other_operator "s1"
                         (Sample.quiet_end 600000) d2) in
  exists s',
    nth_error (Db.user_sessions d3) 0 = Some s'
    /\ Session.status s' = completed /\ Session.start_time s' = 0.
Proof.
  intros d1 d2 d3.
  assert (Hsteps : handler_steps d1 d3).
  { eapply steps_more; [eapply steps_more; [apply steps_none|]|].
    - apply step_startBookingSession.
    - apply step_endBookingSession. }
  destruct (handler_steps_keep_sessions d1 d3 0
              (Part000.end_patch Sample.operator 125000 3
                 (Sample.session "s1" "b1" 0 active))
              Hsteps eq_refl)
    as (s' & Hs' & _ & _ & _ & _ & Hst & _ & Hc).
  exists s'. repeat split; [exact Hs'|apply Hc; reflexivity|exact Hst].
Defined.

(** X13.  Whatever handlers run: no booking is added, removed or moved, and
    of a booking only the status, the confirmation code and [updated_at]
    ever change; its id, customer, workspace, date, slot, duration, price,
    user and desk stay as they were. *)
Theorem handler_steps_keep_bookings (d d' : Db.t) :
  handler_steps d d' ->
  List.length (Db.bookings d') = List.length (Db.bookings d)
  /\ map booking_as_created (Db.bookings d')
     = map booking_as_created (Db.bookings d).
Proof.
  intros Hsteps. destruct (handler_steps_keep _ _ Hsteps) as [Hb _].
  induction Hb as [|b b' l l' Hk _ [IHl IHm]]; [split; reflexivity|].
  simpl. unfold booking_kept in Hk. rewrite Hk, IHl, IHm. split; reflexivity.
Qed.

(** On the sample data: Send Code, then Confirm. *)
Lemma handler_steps_keep_bookings_witness :
  let d1 := Result.db (Part000.updateBookingStatus Sample.operator
                         Sample.shown_pending "b1" code_sent (Some "AB12CD")
                         (Sample.quiet_update 1000) Sample.db_pending) in
  let d2 := Result.db (Pages.updateBookingStatus Sample.other_operator
                         Sample.shown_pending "b1" confirmed None
                         (Sample.quiet_update 2000) d1) in
  map Booking.total_price (Db.bookings d2) = [100]
  /\ map booking_as_created (Db.bookings d2)
     = map booking_as_created (Db.bookings Sample.db_pending).
Proof.
  intros d1 d2. split; [reflexivity|].
  apply (handler_steps_keep_bookings Sample.db_pending d2).
  eapply steps_more; [eapply steps_more; [apply steps_none|]|];
    apply step_updateBookingStatus.
Defined.

(* ------------------------------------------------------------------------- *)
(** ** One status change, seen from the store and from the webhook *)

Lemma update_eq_id_absent {A : Type} (row_id : A -> string) (patch : A -> A)
  (key : string) (rows : list A) :
  find (fun r => (row_id r =? key)%string) rows = None ->
  update_eq_id row_id patch key rows = rows.
Proof.
  unfold update_eq_id. induction rows as [|r l IH]; simpl; [reflexivity|].
  destruct (row_id r =? key)%string; [discriminate|].
  intros H. rewrite (IH H). reflexivity.
Qed.

(** X14.  [updateBookingStatus] writes to the bookings with the given id and
    to nothing else: the sessions and every booking with another id are left
    exactly as they were.  When the store holds no booking with that id, the
    store is unchanged, and the call still reports success if the store
    reports no error. *)
Theorem updateBookingStatus_touches_one_booking (user : User.t)
  (bookings : list Booking.t) (action_of success_text : BookingStatus -> string)
  (bid : string) (newStatus : BookingStatus) (code : option string)
  (env : UpdateEnv) (d : Db.t) :
  let r := updateBookingStatus user bookings action_of success_text bid
             newStatus code env d in
  Db.user_sessions (Result.db r) = Db.user_sessions d
  /\ (forall n b,
        nth_error (Db.bookings d) n = Some b -> Booking.id b <> bid ->
        nth_error (Db.bookings (Result.db r)) n = Some b)
  /\ (find_booking bid (Db.bookings d) = None ->
      Result.db r = d
      /\ (upd_error env = None -> succeeded r = true)).
Proof.
  intros r. subst r.
  destruct (update_db_cases user bookings action_of success_text bid newStatus
              code env d) as [H|(u & H)]; cbv zeta in H; rewrite H.
  - repeat split; try tauto.
    intros He. apply updateBookingStatus_accepted, He.
  - cbn [Db.user_sessions Db.bookings]. repeat apply conj.
    + reflexivity.
    + intros n b Hn Hb. unfold update_eq_id. rewrite nth_error_map, Hn. simpl.
      destruct (String.eqb_spec (Booking.id b) bid); [contradiction|reflexivity].
    + intros Hnone. split.
      * unfold find_booking in Hnone.
        rewrite (update_eq_id_absent _ _ _ _ Hnone). destruct d; reflexivity.
      * intros He. apply updateBookingStatus_accepted, He.
Qed.

(** X15.  The webhook of [updateBookingStatus] is fed from the dashboard's
    own copy of the booking.  A request is sent exactly when the store accepted
    the update and the dashboard's list holds the booking; the customer and
    booking details in its body are those of that copy, whatever the store
    holds, and nothing is sent for an update the store refused. *)
Theorem updateBookingStatus_webhook_from_dashboard_copy (user : User.t)
  (bookings : list Booking.t) (action_of success_text : BookingStatus -> string)
  (bid : string) (newStatus : BookingStatus) (code : option string)
  (env : UpdateEnv) (d : Db.t) :
  let r := updateBookingStatus user bookings action_of success_text bid
             newStatus code env d in
  (Result.posted r = None
   <-> upd_error env <> None \/ find_booking bid bookings = None)
  /\ (forall body,
        Result.posted r = Some body ->
        upd_error env = None
        /\ find_booking bid bookings = Some (customerData body)
        /\ bookingId body = Some bid
        /\ action body = action_of newStatus
        /\ confirmationCode body = (if truthy code then code else None)
        /\ adminUser body <> "").
Proof.
  intros r. subst r. unfold updateBookingStatus.
  destruct (upd_error env) as [e|]; cbn [Result.posted].
  - split; [split; [intros _; left; discriminate|reflexivity]|discriminate].
  - destruct (find_booking bid bookings) as [booking|]; cbn [Result.posted].
    + split.
      * split; [discriminate|intros [H|H]; congruence].
      * intros body H. inversion H; subst body. cbn.
        repeat split.
        apply (or_else_nonempty (Some (User.name user)) "Admin"). discriminate.
    + split; [split; [intros _; right; reflexivity|reflexivity]|discriminate].
Qed.

(* ------------------------------------------------------------------------- *)
(** ** Starting from an up-to-date dashboard *)

Lemma find_booking_id (bid : string) (l : list Booking.t) (b : Booking.t) :
  find_booking bid l = Some b -> Booking.id b = bid.
Proof. apply (find_eq_id_some Booking.id). Qed.

Lemma Part000_check_passes_without_active (user : User.t)
  (bookings : list Booking.t) (bid : string) (booking : Booking.t)
  (env : StartEnv) (d : Db.t) :
  find_booking bid bookings = Some booking ->
  active_sessions_of_booking bid d = [] ->
  st_check_error env = None ->
  Part000.startBookingSession_check user bookings bid env d
  = inr (mkInsert (or_else (Booking.user_id booking) (User.id user))
           bid "booking" (User.id user) active).
Proof.
  intros Hb Hact Hc. unfold Part000.startBookingSession_check.
  rewrite Hb, Hc. unfold select_maybeSingle, maybeSingle.
  unfold active_sessions_of_booking in Hact.
  destruct (sessions_of_booking bid (Db.user_sessions d)) as [|s [|s' l]];
    try reflexivity.
  simpl in Hact.
  destruct (SessionStatus_eqb (Session.status s) active);
    [discriminate|reflexivity].
Qed.

(** X16.  Started from an up-to-date dashboard, and with no other start or
    end of a session of the booking between its check and its insert, a
    session start keeps the booking at one active session.  In part_000: the
    dashboard's list of active sessions holds every active session the store
    has for the booking when the check reads it, the Start button is shown,
    the store answers without error, and the store has the same active
    sessions of the booking when the insert reaches it as at the check
    (whatever else was written meanwhile).  Then the start succeeds and the
    booking has exactly one active session afterwards, however many
    completed ones it had.  The handler run with nothing in between is the
    case where the store at the insert is the store at the check. *)
Theorem startBookingSession_from_fresh_dashboard (user : User.t)
  (bookings : list Booking.t) (activeSessions : list Session.t)
  (bid : string) (booking : Booking.t) (env : StartEnv) (d d' : Db.t) :
  find_booking bid bookings = Some booking ->
  (forall s, In s (active_sessions_of_booking bid d) -> In s activeSessions) ->
  Part000.startButtonShown activeSessions booking = true ->
  st_check_error env = None -> st_insert_error env = None ->
  active_sessions_of_booking bid d' = active_sessions_of_booking bid d ->
  let run :=
    check_then_insert (Part000.startBookingSession_check user bookings bid env)
      (fun i => Part000.startBookingSession_insert i env) d d' in
  succeeded (fst run) = true
  /\ List.length (active_sessions_of_booking bid (snd run)) = 1%nat
  /\ List.length (Db.user_sessions (snd run))
     = S (List.length (Db.user_sessions d'))
  /\ (d' = d ->
      fst run = Part000.startBookingSession user bookings bid env d
      /\ snd run
         = Result.db (Part000.startBookingSession user bookings bid env d)).
Proof.
  intros Hb Hfresh Hshown Hc Hi Hsame run.
  pose proof (find_booking_id _ _ _ Hb) as Hid.
  assert (Hact : active_sessions_of_booking bid d = []).
  { destruct (active_sessions_of_booking bid d) as [|s l] eqn:E;
      [reflexivity|exfalso].
    assert (Hs : In s (active_sessions_of_booking bid d))
      by (rewrite E; left; reflexivity).
    pose proof (Hfresh s (or_introl eq_refl)) as Hin.
    unfold active_sessions_of_booking, sessions_of_booking in Hs.
    apply filter_In in Hs. destruct Hs as [Hs Hst].
    apply filter_In in Hs. destruct Hs as [_ Hbk].
    unfold Part000.startButtonShown in Hshown.
    apply andb_prop in Hshown. destruct Hshown as [_ Hshown].
    destruct (Part000.getBookingActiveSession activeSessions (Booking.id booking))
      eqn:Hget; [discriminate|].
    unfold Part000.getBookingActiveSession in Hget.
    pose proof (find_none _ _ Hget s Hin) as Hno. cbv beta in Hno.
    rewrite Hid, Hbk, Hst in Hno. discriminate. }
  rewrite Hact in Hsame.
  subst run. unfold check_then_insert, Part000.startBookingSession.
  rewrite (Part000_check_passes_without_active _ _ _ _ _ _ Hb Hact Hc).
  unfold Part000.startBookingSession_insert, start_insert, insert.
  rewrite Hi. cbn [fst snd Result.db succeeded Result.toast Db.user_sessions].
  split; [reflexivity|]. split; [|split].
  - unfold active_sessions_of_booking in *. cbn [Db.user_sessions].
    rewrite sessions_of_booking_inserted by reflexivity.
    rewrite filter_app, Hsame. reflexivity.
  - rewrite length_app. simpl. lia.
  - intros ->. split; reflexivity.
Qed.

(** On the sample data: the booking had two completed sessions, and another
    booking got a session between the check and the insert. *)
Lemma startBookingSession_from_fresh_dashboard_witness :
  let d := Db.mk [Sample.booking "b1" 100 confirmed None (Some "cust-1")]
             [Sample.session "s1" "b1" 0 completed;
              Sample.session "s2" "b1" 500 completed] in
  let d' := Db.mk (Db.bookings d)
              (Db.user_sessions d ++ [Sample.session "s9" "b2" 900 active]) in
  let run :=
    check_then_insert
      (Part000.startBookingSession_check Sample.operator
         Sample.shown_confirmed "b1" (Sample.quiet_start "s3" 1000))
      (fun i => Part000.startBookingSession_insert i
                  (Sample.quiet_start "s3" 1000)) d d' in
  succeeded (fst run) = true
  /\ map Session.id (active_sessions_of_booking "b1" (snd run)) = ["s3"].
Proof.
  intros d d' run.
  destruct (startBookingSession_from_fresh_dashboard Sample.operator
              Sample.shown_confirmed [] "b1"
              (Sample.booking "b1" 100 confirmed None (Some "cust-1"))
              (Sample.quiet_start "s3" 1000) d d' eq_refl
              (fun s H => H) eq_refl eq_refl eq_refl eq_refl) as (Hok & _).
  split; [exact Hok|reflexivity].
Defined.

(** X17.  In the pages version a start keeps every user at one active
    session at most, as long as no session of the same user is started or
    ended between its check and its insert: if the check is answered without
    error, no user has more than one active session in the store as the
    insert finds it, and the user of the call has the same active sessions
    there as at the check, then no user has more than one active session
    afterwards, whether the call was refused or went through. *)
Theorem Pages_start_keeps_one_active_session_per_user (user : User.t)
  (bid : string) (userId : option string) (env : StartEnv) (d d' : Db.t) :
  st_check_error env = None ->
  (forall u,
     (List.length (active_sessions_of_user u (Db.user_sessions d')) <= 1)%nat) ->
  active_sessions_of_user (or_else userId "") (Db.user_sessions d')
  = active_sessions_of_user (or_else userId "") (Db.user_sessions d) ->
  let run :=
    check_then_insert (Pages.startBookingSession_check user bid userId env)
      (fun i => Pages.startBookingSession_insert i env) d d' in
  (forall u,
     (List.length (active_sessions_of_user u (Db.user_sessions (snd run)))
      <= 1)%nat)
  /\ (d' = d ->
      fst run = Pages.startBookingSession user bid userId env d
      /\ snd run = Result.db (Pages.startBookingSession user bid userId env d)).
Proof.
  intros Hc Hinv Hsame run.
  assert (Hd : d' = d ->
               fst run = Pages.startBookingSession user bid userId env d
               /\ snd run
                  = Result.db (Pages.startBookingSession user bid userId env d)).
  { intros ->. subst run. unfold check_then_insert, Pages.startBookingSession.
    destruct (Pages.startBookingSession_check user bid userId env d)
      as [r|i] eqn:Hchk; [|split; reflexivity].
    split; [reflexivity|]. symmetry. eapply Pages_start_check_db, Hchk. }
  split; [|exact Hd]. clear Hd. intros u. subst run.
  unfold check_then_insert, Pages.startBookingSession_check.
  destruct (truthy userId) eqn:Ht; cbn [negb]; [|apply Hinv].
  rewrite Hc. unfold select_maybeSingle.
  pose proof (Hinv (or_else userId "")) as Hone. rewrite Hsame in Hone.
  destruct (active_sessions_of_user (or_else userId "") (Db.user_sessions d))
    as [|s [|s' l]] eqn:Hact.
  - cbn [maybeSingle fatal_check_error].
    unfold Pages.startBookingSession_insert, start_insert, insert.
    destruct (st_insert_error env); cbn [snd Result.db Db.user_sessions];
      [apply Hinv|].
    unfold active_sessions_of_user at 1. rewrite filter_app, length_app.
    cbn [filter inserted_row Session.user_id Session.status ins_user_id
           ins_status SessionStatus_eqb].
    destruct (String.eqb_spec (or_else userId "") u) as [<-|_]; cbn.
    + unfold active_sessions_of_user in Hsame. rewrite Hsame. reflexivity.
    + specialize (Hinv u). unfold active_sessions_of_user in Hinv. lia.
  - cbn [maybeSingle fatal_check_error snd]. apply Hinv.
  - simpl in Hone. lia.
Qed.

(** On the sample data: the customer already has an active session on
    another booking. *)
Lemma Pages_start_keeps_one_active_session_per_user_witness :
  let d := Db.mk [Sample.booking "b1" 100 confirmed None (Some "cust-1");
                  Sample.booking "b2" 200 confirmed None (Some "cust-1")]
             [Sample.session "s1" "b1" 0 active] in
  let r := Pages.startBookingSession Sample.operator "b2" (Some "cust-1")
             (Sample.quiet_start "s2" 1000) d in
  (List.length (active_sessions_of_user "cust-1"
                  (Db.user_sessions (Result.db r))) <= 1)%nat
  /\ failed r = true.
Proof.
  intros d r. split; [|reflexivity].
  apply (proj1 (Pages_start_keeps_one_active_session_per_user Sample.operator
                  "b2" (Some "cust-1") (Sample.quiet_start "s2" 1000) d d
                  eq_refl
                  (fun u => proj1 (filter_length_In _
                                     [Sample.session "s1" "b1" 0 active]))
                  eq_refl)).
Defined.

(* ------------------------------------------------------------------------- *)
(** ** A session from start to end, and started again *)

Lemma filter_nil_find_none {A : Type} (p : A -> bool) (l : list A) :
  filter p l = [] -> find p l = None.
Proof.
  induction l as [|a l IH]; simpl; [reflexivity|].
  destruct (p a); [discriminate|exact IH].
Qed.

Lemma find_app_none {A : Type} (p : A -> bool) (l1 l2 : list A) :
  find p l1 = None -> find p (l1 ++ l2) = find p l2.
Proof.
  induction l1 as [|a l IH]; simpl; [reflexivity|].
  destruct (p a); [discriminate|exact IH].
Qed.

Lemma endBookingSession_db_exact (user : User.t) (sessionId : string)
  (env : EndEnv) (d : Db.t) (s : Session.t) :
  filter (fun s => (Session.id s =? sessionId)%string) (Db.user_sessions d)
  = [s] ->
  end_select_error env = None -> end_update_error env = None ->
  Result.db (Part000.endBookingSession user sessionId env d)
  = Db.mk (Db.bookings d)
      (update_eq_id Session.id
         (Part000.end_patch user (end_now env)
            (Math_ceil_div (end_now env - Session.start_time s) (1000 * 60)))
         sessionId (Db.user_sessions d))
  /\ Result.toast (Part000.endBookingSession user sessionId env d)
     = Some (toast_success
               ("Session ended. Duration: "
                ++ number_text
                     (Math_ceil_div (end_now env - Session.start_time s)
                        (1000 * 60) / 60) ++ "h "
                ++ number_text
                     (Z.rem (Math_ceil_div (end_now env - Session.start_time s)
                               (1000 * 60)) 60) ++ "m")).
Proof.
  intros Hs He Hu. unfold Part000.endBookingSession, select_single.
  rewrite He, Hs. cbn [single]. rewrite Hu.
  destruct (Part000.joined_booking s d); split; reflexivity.
Qed.

(** X18.  A session can be run from start to end and the booking started
    again.  In part_000, for a booking with no session yet and a fresh
    session id: the start succeeds; ending that session succeeds, leaves the
    booking without an active session and stores as duration the ceiling in
    minutes of the time between the start time the store gave and the end
    time; after that a new start for the same booking succeeds and its
    session is the only active one. *)
Theorem session_start_end_start (user1 user2 user3 : User.t)
  (bookings : list Booking.t) (bid : string) (booking : Booking.t)
  (env1 env3 : StartEnv) (env2 : EndEnv) (d : Db.t) :
  find_booking bid bookings = Some booking ->
  sessions_of_booking bid (Db.user_sessions d) = [] ->
  filter (fun s => (Session.id s =? st_new_id env1)%string) (Db.user_sessions d)
  = [] ->
  st_check_error env1 = None -> st_insert_error env1 = None ->
  end_select_error env2 = None -> end_update_error env2 = None ->
  st_check_error env3 = None -> st_insert_error env3 = None ->
  let r1 := Part000.startBookingSession user1 bookings bid env1 d in
  let r2 := Part000.endBookingSession user2 (st_new_id env1) env2
              (Result.db r1) in
  let r3 := Part000.startBookingSession user3 bookings bid env3
              (Result.db r2) in
  succeeded r1 = true /\ succeeded r2 = true /\ succeeded r3 = true
  /\ active_sessions_of_booking bid (Result.db r2) = []
  /\ (exists s,
        find_session (st_new_id env1) (Result.db r2) = Some s
        /\ Session.status s = completed
        /\ Session.end_time s = Some (end_now env2)
        /\ Session.ended_by s = Some (User.id user2)
        /\ Session.duration_minutes s
           = Some (Math_ceil_div (end_now env2 - st_start_time env1) 60000))
  /\ map Session.id (active_sessions_of_booking bid (Result.db r3))
     = [st_new_id env3].
Proof.
  intros Hb Hnone Hfresh Hc1 Hi1 Hs2 Hu2 Hc3 Hi3 r1 r2 r3.
  set (row := inserted_row
                (mkInsert (or_else (Booking.user_id booking) (User.id user1))
                   bid "booking" (User.id user1) active) env1).
  assert (H1 : r1 = Result.mk
                      (Db.mk (Db.bookings d) (Db.user_sessions d ++ [row]))
                      (Some (toast_success "Booking session started successfully"))
                      [] None true).
  { apply Part000_start_fresh; assumption. }
  assert (Hrow : filter (fun s => (Session.id s =? st_new_id env1)%string)
                   (Db.user_sessions (Result.db r1)) = [row]).
  { rewrite H1. cbn [Result.db Db.user_sessions].
    rewrite filter_app, Hfresh. simpl. rewrite String.eqb_refl. reflexivity. }
  destruct (endBookingSession_db user2 _ env2 _ row Hrow Hs2 Hu2)
    as (Hok2 & _ & _).
  destruct (endBookingSession_db_exact user2 _ env2 _ row Hrow Hs2 Hu2)
    as (Hdb2 & _).
  fold r2 in Hok2, Hdb2.
  set (done := Part000.end_patch user2 (end_now env2)
                 (Math_ceil_div (end_now env2 - Session.start_time row)
                    (1000 * 60)) row) in *.
  assert (Hsess2 : Db.user_sessions (Result.db r2)
                   = (Db.user_sessions d ++ [done])%list).
  { rewrite Hdb2, H1. cbn [Result.db Db.user_sessions Db.bookings].
    unfold update_eq_id. rewrite map_app.
    change (map _ (Db.user_sessions d))
      with (update_eq_id Session.id
              (Part000.end_patch user2 (end_now env2)
                 (Math_ceil_div (end_now env2 - Session.start_time row)
                    (1000 * 60))) (st_new_id env1) (Db.user_sessions d)).
    rewrite update_eq_id_absent by (apply filter_nil_find_none, Hfresh).
    simpl. rewrite String.eqb_refl. reflexivity. }
  assert (Hof2 : sessions_of_booking bid (Db.user_sessions (Result.db r2))
                 = [done]).
  { rewrite Hsess2. unfold sessions_of_booking in *.
    rewrite filter_app, Hnone. simpl. rewrite String.eqb_refl. reflexivity. }
  assert (Hact2 : active_sessions_of_booking bid (Result.db r2) = []).
  { unfold active_sessions_of_booking. rewrite Hof2. reflexivity. }
  assert (H3 : r3 = Result.mk
                      (Db.mk (Db.bookings (Result.db r2))
                         (Db.user_sessions (Result.db r2)
                          ++ [inserted_row
                                (mkInsert
                                   (or_else (Booking.user_id booking)
                                      (User.id user3))
                                   bid "booking" (User.id user3) active) env3]))
                      (Some (toast_success "Booking session started successfully"))
                      [] None true).
  { subst r3. unfold Part000.startBookingSession.
    rewrite (Part000_check_passes_without_active _ _ _ _ _ _ Hb Hact2 Hc3).
    unfold Part000.startBookingSession_insert, start_insert, insert.
    rewrite Hi3. reflexivity. }
  split; [rewrite H1; reflexivity|]. split; [exact Hok2|].
  split; [rewrite H3; reflexivity|]. split; [exact Hact2|]. split.
  - exists done. split.
    + unfold find_session. rewrite Hsess2.
      rewrite find_app_none by (apply filter_nil_find_none, Hfresh). simpl.
      rewrite String.eqb_refl. reflexivity.
    + repeat split.
  - rewrite H3. unfold active_sessions_of_booking.
    cbn [Result.db Db.user_sessions].
    rewrite sessions_of_booking_inserted by reflexivity.
    rewrite Hof2. reflexivity.
Qed.

(** On the sample data: start, end after 125 seconds, start again. *)
Lemma session_start_end_start_witness :
  let r1 := Part000.startBookingSession Sample.operator Sample.shown_confirmed
              "b1" (Sample.quiet_start "s1" 1000) Sample.db_confirmed in
  let r2 := Part000.endBookingSession Sample.other_operator "s1"
              (Sample.quiet_end 126000) (Result.db r1) in
  let r3 := Part000.startBookingSession Sample.operator Sample.shown_confirmed
              "b1" (Sample.quiet_start "s2" 130000) (Result.db r2) in
  succeeded r3 = true
  /\ map Session.id (active_sessions_of_booking "b1" (Result.db r3)) = ["s2"]
  /\ option_map Session.duration_minutes (find_session "s1" (Result.db r3))
     = Some (Some 3).
Proof.
  intros r1 r2 r3.
  destruct (session_start_end_start Sample.operator Sample.other_operator
              Sample.operator Sample.shown_confirmed "b1"
              (Sample.booking "b1" 100 confirmed None (Some "cust-1"))
              (Sample.quiet_start "s1" 1000) (Sample.quiet_start "s2" 130000)
              (Sample.quiet_end 126000) Sample.db_confirmed
              eq_refl eq_refl eq_refl eq_refl eq_refl eq_refl eq_refl eq_refl
              eq_refl) as (_ & _ & Hok3 & _ & _ & Hact3).
  split; [exact Hok3|]. split; [exact Hact3|reflexivity].
Defined.

(* ------------------------------------------------------------------------- *)
(** ** The stored duration and the toast *)

Lemma Math_ceil_div_mono (a1 a2 b : Z) :
  0 < b -> a1 <= a2 -> Math_ceil_div a1 b <= Math_ceil_div a2 b.
Proof.
  intros Hb H. pose proof (Math_ceil_div_spec a1 b Hb).
  pose proof (Math_ceil_div_spec a2 b Hb). nia.
Qed.

(** X19.  What [endBookingSession] stores and shows as duration.  The toast
    reads "Session ended. Duration: Hh Mm" for the stored number of minutes
    split into hours and minutes.  When the end time is not before the start
    time, the stored duration is not negative and M is between 0 and 59.  The
    duration is not clamped: an end time a minute or more before the stored
    start time (the operator's clock behind the store's) stores a negative
    duration.  Of two possible end times the later never gives the shorter
    duration. *)
Theorem endBookingSession_duration_and_toast (user : User.t)
  (sessionId : string) (env env' : EndEnv) (d : Db.t) :
  let r := Part000.endBookingSession user sessionId env d in
  let r' := Part000.endBookingSession user sessionId env' d in
  succeeded r = true ->
  exists s m h mi,
    find_session sessionId d = Some s
    /\ option_map Session.duration_minutes
         (find_session sessionId (Result.db r)) = Some (Some m)
    /\ Result.toast r
       = Some (toast_success ("Session ended. Duration: " ++ number_text h
                              ++ "h " ++ number_text mi ++ "m"))
    /\ (0 <= m -> 60 * h + mi = m /\ 0 <= h /\ 0 <= mi < 60)
    /\ (Session.start_time s <= end_now env -> 0 <= m)
    /\ (end_now env <= Session.start_time s - 60000 -> m <= -1)
    /\ (succeeded r' = true -> end_now env <= end_now env' ->
        exists m',
          option_map Session.duration_minutes
            (find_session sessionId (Result.db r')) = Some (Some m')
          /\ m <= m').
Proof.
  intros r r' Hok.
  destruct (endBookingSession_succeeded_inv _ _ _ _ Hok) as (s & Hs & He & Hu).
  destruct (endBookingSession_db user sessionId env d s Hs He Hu)
    as (_ & _ & Hf).
  destruct (endBookingSession_db_exact user sessionId env d s Hs He Hu)
    as (_ & Htoast).
  fold r in Hf, Htoast.
  set (m := Math_ceil_div (end_now env - Session.start_time s) (1000 * 60)) in *.
  pose proof (Math_ceil_div_spec (end_now env - Session.start_time s) 60000
                ltac:(lia)) as Hm.
  change (Math_ceil_div (end_now env - Session.start_time s) 60000) with m in Hm.
  exists s, m, (m / 60), (Z.rem m 60).
  split; [now apply filter_eq_id_singleton_find|].
  split; [rewrite (filter_eq_id_singleton_find _ _ _ Hf); reflexivity|].
  split; [exact Htoast|].
  split.
  { intros Hpos. rewrite Z.rem_mod_nonneg by lia.
    pose proof (Z.div_mod m 60 ltac:(lia)).
    pose proof (Z.mod_pos_bound m 60 ltac:(lia)).
    pose proof (Z.div_pos m 60 Hpos ltac:(lia)). lia. }
  split; [intros; lia|]. split; [intros; lia|].
  intros Hok' Hlater.
  destruct (endBookingSession_succeeded_inv _ _ _ _ Hok')
    as (s' & Hs' & He' & Hu').
  rewrite Hs in Hs'. inversion Hs'; subst s'.
  destruct (endBookingSession_db user sessionId env' d s Hs He' Hu')
    as (_ & _ & Hf').
  fold r' in Hf'.
  exists (Math_ceil_div (end_now env' - Session.start_time s) (1000 * 60)).
  split; [rewrite (filter_eq_id_singleton_find _ _ _ Hf'); reflexivity|].
  apply Math_ceil_div_mono; lia.
Qed.

(** On the sample data: a session of two hours and five minutes. *)
Lemma endBookingSession_duration_and_toast_witness :
  Result.toast (Part000.endBookingSession Sample.operator "s1"
                  (Sample.quiet_end (125 * 60000))
                  Sample.db_one_active_session)
  = Some (toast_success "Session ended. Duration: 2h 5m")
  /\ exists m,
       option_map Session.duration_minutes
         (find_session "s1"
            (Result.db (Part000.endBookingSession Sample.operator "s1"
                          (Sample.quiet_end (125 * 60000))
                          Sample.db_one_active_session))) = Some (Some m)
       /\ 0 <= m.
Proof.
  split; [reflexivity|].
  destruct (endBookingSession_duration_and_toast Sample.operator "s1"
              (Sample.quiet_end (125 * 60000)) (Sample.quiet_end 0)
              Sample.db_one_active_session eq_refl)
    as (s & m & h & mi & Hs & Hm & _ & _ & Hpos & _).
  exists m. split; [exact Hm|]. apply Hpos.
  vm_compute in Hs. inversion Hs. vm_compute. discriminate.
Defined.

(* ------------------------------------------------------------------------- *)
(** ** The numbers on the cards *)

Lemma count_two_statuses (l : list Booking.t) :
  0 <= count_status pending l
  /\ 0 <= count_status confirmed l
  /\ count_status pending l + count_status confirmed l
     <= Z.of_nat (List.length l).
Proof.
  unfold count_status. induction l as [|b l IH]; [simpl; lia|].
  cbn [filter]. destruct (Booking.status b);
    cbn [BookingStatus_eqb List.length]; rewrite ?Nat2Z.inj_succ; lia.
Qed.

(** X20.  The counts on the cards.  In both versions the total is the number
    of bookings fetched and the pending and confirmed counts are parts of it
    that do not overlap (pending + confirmed <= total); the two versions
    agree on all three counts; and a null reply of the bookings query gives
    zero everywhere. *)
Theorem stats_counts (user : User.t) (data : list Booking.t)
  (users : option (list string)) (count : option Z) :
  let s := Part000.fetchDashboardData_stats (Some data) users in
  let s' := Pages.fetchDashboardData_stats user (Some data) count in
  let z := Part000.fetchDashboardData_stats None users in
  let z' := Pages.fetchDashboardData_stats user None count in
  totalBookings s = Z.of_nat (List.length data)
  /\ 0 <= pendingBookings s /\ 0 <= confirmedBookings s
  /\ pendingBookings s + confirmedBookings s <= totalBookings s
  /\ totalBookings s' = totalBookings s
  /\ pendingBookings s' = pendingBookings s
  /\ confirmedBookings s' = confirmedBookings s
  /\ (totalBookings z, pendingBookings z, confirmedBookings z, totalRevenue z)
     = (0, 0, 0, 0)
  /\ (totalBookings z', pendingBookings z', confirmedBookings z',
      totalRevenue z') = (0, 0, 0, 0).
Proof.
  intros s s' z z'. subst s s' z z'.
  unfold Part000.fetchDashboardData_stats, Pages.fetchDashboardData_stats.
  cbn [totalBookings pendingBookings confirmedBookings totalRevenue].
  rewrite !or_zero_id.
  destruct (count_two_statuses data) as (Hp & Hc & Hsum).
  repeat split; assumption.
Qed.

Lemma revenue_split (l : list Booking.t) :
  revenue_of_all l
  = revenue_of_confirmed l
    + revenue_of_all
        (filter (fun b => negb (BookingStatus_eqb (Booking.status b) confirmed))
           l).
Proof.
  induction l as [|b l IH]; simpl; [reflexivity|].
  destruct (BookingStatus_eqb (Booking.status b) confirmed); simpl; lia.
Qed.

Lemma revenue_of_all_nonneg (l : list Booking.t) :
  (forall b, In b l -> 0 <= Booking.total_price b) -> 0 <= revenue_of_all l.
Proof.
  induction l as [|b l IH]; simpl; intros H; [lia|].
  pose proof (H b (or_introl eq_refl)).
  assert (0 <= revenue_of_all l) by (apply IH; intros; apply H; now right).
  lia.
Qed.

(** X21.  The revenue of the two versions, for prices that JavaScript adds
    without rounding (integers that are not negative, with a total that is a
    safe integer).  The pages version shows the sum of the prices of the
    confirmed bookings, and part_000 shows that sum plus the prices of all
    bookings that are not confirmed.  So part_000 never shows less, the two
    agree when every booking is confirmed, and both numbers are safe
    integers. *)
Theorem totalRevenue_of_the_two_versions (user : User.t)
  (data : list Booking.t) (users : option (list string)) (count : option Z) :
  exact_sums data ->
  let unconfirmed :=
    filter (fun b => negb (BookingStatus_eqb (Booking.status b) confirmed))
      data in
  let rev := totalRevenue (Part000.fetchDashboardData_stats (Some data) users) in
  let rev' :=
    totalRevenue (Pages.fetchDashboardData_stats user (Some data) count) in
  rev' = revenue_of_confirmed data
  /\ rev = rev' + revenue_of_all unconfirmed
  /\ 0 <= rev' <= rev
  /\ rev <= MAX_SAFE_INTEGER
  /\ (unconfirmed = [] -> rev = rev').
Proof.
  intros [Hpos Hmax] unconfirmed rev rev'. subst rev rev'.
  rewrite Pages_totalRevenue_confirmed_only, Part000_totalRevenue_all.
  pose proof (revenue_split data) as Hsplit. fold unconfirmed in Hsplit.
  assert (Hun : 0 <= revenue_of_all unconfirmed).
  { apply revenue_of_all_nonneg. intros b Hb. apply Hpos.
    apply filter_In in Hb. tauto. }
  assert (Hconf : 0 <= revenue_of_confirmed data).
  { clear Hmax Hsplit Hun unconfirmed.
    induction data as [|b l IH]; simpl; [lia|].
    pose proof (Hpos b (or_introl eq_refl)).
    assert (0 <= revenue_of_confirmed l)
      by (apply IH; intros; apply Hpos; now right).
    destruct (BookingStatus_eqb (Booking.status b) confirmed); lia. }
  split; [reflexivity|]. split; [exact Hsplit|]. split; [lia|].
  split; [exact Hmax|].
  intros Hnil. rewrite Hnil in Hsplit. simpl in Hsplit. lia.
Qed.

(** On the sample data: [confirmed:100, confirmed:200, confirmed:300,
    pending:50]. *)
Lemma totalRevenue_of_the_two_versions_witness :
  totalRevenue
    (Part000.fetchDashboardData_stats (Some Sample.four_bookings) None)
  = totalRevenue
      (Pages.fetchDashboardData_stats Sample.operator
         (Some Sample.four_bookings) None)
    + 50.
Proof.
  assert (Hexact : exact_sums Sample.four_bookings).
  { split; [|vm_compute; discriminate].
    intros b [<-|[<-|[<-|[<-|[]]]]]; vm_compute; discriminate. }
  exact (proj1 (proj2 (totalRevenue_of_the_two_versions Sample.operator
                         Sample.four_bookings None None Hexact))).
Defined.

(** X22.  The active users card.  part_000 counts every user once, however
    many sessions of the last thirty days the user has: one more session row
    of a user already counted leaves the number as it is, one of a new user
    adds one, and the number never exceeds the number of rows.  In the pages
    version the card of a staff member is always zero. *)
Theorem activeUsers_counts_each_user_once (bookingsData : option (list Booking.t))
  (rows : list string) (u : string) (count : option Z) (user : User.t) :
  let n l := activeUsers (Part000.fetchDashboardData_stats bookingsData (Some l)) in
  (In u rows -> n (u :: rows) = n rows)
  /\ (~ In u rows -> n (u :: rows) = n rows + 1)
  /\ 0 <= n rows <= Z.of_nat (List.length rows)
  /\ (User.role user <> admin ->
      activeUsers (Pages.fetchDashboardData_stats user bookingsData count) = 0).
Proof.
  intros n. subst n. unfold Part000.fetchDashboardData_stats,
    Pages.fetchDashboardData_stats. cbn [activeUsers].
  repeat apply conj.
  - intros Hin. simpl. destruct (in_dec string_dec u rows); [reflexivity|].
    contradiction.
  - intros Hnot. simpl. destruct (in_dec string_dec u rows); [contradiction|].
    simpl. lia.
  - lia.
  - clear u. induction rows as [|x l IH]; simpl; [lia|].
    destruct (in_dec string_dec x l); simpl; lia.
  - intros Hrole. destruct (User.role user); [congruence|reflexivity..].
Qed.

(* ------------------------------------------------------------------------- *)
(** ** From the button to the store *)

(** X23.  From an up-to-date row, every button makes an allowed transition.
    When the store holds the booking with the status the dashboard shows for
    it, the call made by Send Code, Confirm or Reject changes the stored
    status along an allowed transition, succeeds if the store reports no
    error, and leaves the confirmation code as it was unless a non-empty code
    was sent with it. *)
Theorem click_from_fresh_row_is_allowed (user : User.t)
  (bookings : list Booking.t) (action_of success_text : BookingStatus -> string)
  (booking stored : Booking.t) (button : PendingButton) (key : string)
  (target : BookingStatus) (c : option string) (env : UpdateEnv) (d : Db.t) :
  find_booking (Booking.id booking) (Db.bookings d) = Some stored ->
  Booking.status stored = Booking.status booking ->
  onClick booking button = Some (key, target, c) ->
  upd_error env = None ->
  let r := updateBookingStatus user bookings action_of success_text key target
             c env d in
  storedStatus d key = Some pending
  /\ allowed pending target = true
  /\ succeeded r = true
  /\ storedStatus (Result.db r) key = Some target
  /\ storedCode (Result.db r) key
     = (if truthy c then c else Booking.confirmation_code stored).
Proof.
  intros Hstored Hsame Hclick He r.
  destruct (onClick_inv _ _ _ _ _ Hclick) as (-> & Hp & Hcases).
  assert (Hst : storedStatus d (Booking.id booking) = Some pending).
  { unfold storedStatus. rewrite Hstored. simpl. congruence. }
  split; [exact Hst|]. split.
  { destruct Hcases as [(_ & -> & _)|[(_ & -> & _)|(c' & _ & -> & _)]];
      reflexivity. }
  split; [apply updateBookingStatus_accepted, He|]. split.
  - eapply updateBookingStatus_status; eassumption.
  - apply updateBookingStatus_code; assumption.
Qed.

(** On the sample data: Send Code on a pending booking. *)
Lemma click_from_fresh_row_is_allowed_witness :
  let shown := Sample.booking "b1" 100 pending None (Some "cust-1") in
  let r := Part000.updateBookingStatus Sample.operator [shown] "b1" code_sent
             (Some "AB12CD") (Sample.quiet_update 1000) Sample.db_pending in
  storedStatus (Result.db r) "b1" = Some code_sent
  /\ storedCode (Result.db r) "b1" = Some "AB12CD".
Proof.
  intros shown r.
  destruct (click_from_fresh_row_is_allowed Sample.operator [shown]
              Part000.action_of Part000.success_text shown shown
              (SendCode "AB12CD") "b1" code_sent (Some "AB12CD")
              (Sample.quiet_update 1000) Sample.db_pending
              eq_refl eq_refl eq_refl eq_refl) as (_ & _ & _ & Hst & Hcode).
  split; [exact Hst|exact Hcode].
Defined.

(** X24.  A panel is rendered only under a tab that is offered to the role:
    in both versions the subscriptions and discounts panels, and in part_000
    the settings panel, are rendered for admins only, whatever [activeTab]
    holds, and so are the revenue and active users cards. *)
Theorem panels_follow_the_tabs (role : Role) (activeTab : Tab.t) :
  (Part000Tabs.panelShown activeTab role = true ->
   In activeTab (Part000Tabs.tabs role))
  /\ (PagesTabs.panelShown activeTab role = true ->
      In activeTab (PagesTabs.tabs role))
  /\ (In activeTab (Part000Tabs.tabs role) ->
      Part000Tabs.panelShown activeTab role = true)
  /\ (In activeTab (PagesTabs.tabs role) ->
      PagesTabs.panelShown activeTab role = true)
  /\ (role <> admin ->
      Part000Tabs.panelShown Tab.settings role = false
      /\ Part000Tabs.moneyCardsShown role = false
      /\ PagesTabs.moneyCardsShown role = false
      /\ ~ In Tab.settings (Part000Tabs.tabs role)).
Proof.
  repeat apply conj.
  - destruct role, activeTab; simpl; intros H; try discriminate; tauto.
  - destruct role, activeTab; simpl; intros H; try discriminate; tauto.
  - destruct role, activeTab; simpl; intros H; try reflexivity;
      repeat (destruct H as [H|H]; try discriminate H); destruct H.
  - destruct role, activeTab; simpl; intros H; try reflexivity;
      repeat (destruct H as [H|H]; try discriminate H); destruct H.
  - intros Hrole. destruct role; [congruence| |];
      (repeat split; simpl; intros H;
       repeat (destruct H as [H|H]; try discriminate H); destruct H).
Qed.

(* ------------------------------------------------------------------------- *)
(** ** One session end, seen from the store and from the webhook *)

(** X25.  [endBookingSession] writes to the session with the given id and to
    nothing else: the bookings and every session with another id are left
    exactly as they were.  A session whose booking cannot be looked up (no
    booking reference, or no such booking) is ended all the same: the call
    succeeds and the session is completed, but no webhook request is sent and
    "Webhook failed:" is logged. *)
Theorem endBookingSession_touches_one_session (user : User.t)
  (sessionId : string) (env : EndEnv) (d : Db.t) :
  let r := Part000.endBookingSession user sessionId env d in
  Db.bookings (Result.db r) = Db.bookings d
  /\ (forall n s,
        nth_error (Db.user_sessions d) n = Some s ->
        Session.id s <> sessionId ->
        nth_error (Db.user_sessions (Result.db r)) n = Some s)
  /\ (forall s,
        filter (fun s => (Session.id s =? sessionId)%string)
          (Db.user_sessions d) = [s] ->
        end_select_error env = None -> end_update_error env = None ->
        Part000.joined_booking s d = None ->
        succeeded r = true
        /\ Result.posted r = None
        /\ Result.console r = ["Webhook failed:"]
        /\ option_map Session.status (find_session sessionId (Result.db r))
           = Some completed).
Proof.
  intros r. subst r. repeat apply conj.
  - destruct (end_db_cases user sessionId env d) as [H|(t & m & H)];
      cbv zeta in H; rewrite H; reflexivity.
  - intros n s Hn Hid.
    destruct (end_db_cases user sessionId env d) as [H|(t & m & H)];
      cbv zeta in H; rewrite H; [exact Hn|].
    cbn [Db.user_sessions]. unfold update_eq_id. rewrite nth_error_map, Hn.
    simpl. destruct (String.eqb_spec (Session.id s) sessionId);
      [contradiction|reflexivity].
  - intros s Hs He Hu Hj.
    destruct (endBookingSession_db user sessionId env d s Hs He Hu)
      as (Hok & _ & Hf).
    split; [exact Hok|].
    rewrite (filter_eq_id_singleton_find _ _ _ Hf).
    unfold Part000.endBookingSession, select_single.
    rewrite He, Hs. cbn [single]. rewrite Hu, Hj. repeat split.
Qed.

(** X26.  Registering and then logging in gives back the registered user: a
    [register] whose insert the store accepts, for an account with no row in
    [users] yet, adds a customer row with the e-mail address, name and
    WhatsApp number given; a later [login] of that account sets the user to
    that row, whatever the metadata of the auth record say. *)
Theorem register_then_login (email name whatsapp : string)
  (su su' : AuthContext.SupabaseUser) (table : list User.t)
  (env : AuthContext.LoginEnv) (current : option User.t) :
  filter (fun u => (User.id u =? AuthContext.su_id su)%string) table = [] ->
  AuthContext.su_id su' = AuthContext.su_id su ->
  AuthContext.signIn env = inl (Some su') ->
  AuthContext.login_profile_fault env = None ->
  let registered :=
    AuthContext.register email name whatsapp (inl (Some su)) None table
      current in
  let logged :=
    AuthContext.login env (AuthContext.users registered)
      (AuthContext.user registered) in
  let newUser :=
    User.mk (AuthContext.su_id su) email name (Some whatsapp) customer in
  AuthContext.users registered = (table ++ [newUser])%list
  /\ AuthContext.user registered = Some newUser
  /\ AuthContext.user logged = Some newUser
  /\ AuthContext.users logged = AuthContext.users registered
  /\ dashboardShown (AuthContext.user logged) = false.
Proof.
  intros Hnone Hid Hs Hf registered logged newUser.
  subst registered logged. unfold AuthContext.register.
  cbn [AuthContext.users AuthContext.user]. unfold insert.
  unfold AuthContext.login, AuthContext.select_profile, select_single.
  rewrite Hs, Hf, Hid, filter_app, Hnone. simpl. rewrite String.eqb_refl.
  repeat split.
Qed.

(** On the sample data: a new customer registers and logs in. *)
Lemma register_then_login_witness :
  let su := AuthContext.mkSupabaseUser "u1" (Some "nour@example.org") None in
  let registered :=
    AuthContext.register "nour@example.org" "Nour" "0100" (inl (Some su)) None
      [Sample.operator] None in
  AuthContext.user
    (AuthContext.login (AuthContext.mkLoginEnv (inl (Some su)) None None None)
       (AuthContext.users registered) (AuthContext.user registered))
  = Some (User.mk "u1" "nour@example.org" "Nour" (Some "0100") customer).
Proof.
  intros su registered.
  apply (register_then_login "nour@example.org" "Nour" "0100" su su
           [Sample.operator]
           (AuthContext.mkLoginEnv (inl (Some su)) None None None) None
           eq_refl eq_refl eq_refl eq_refl).
Defined.
